(** * Claudmap: the scan / validate / analyse / report pipeline of [ctf.py]

    A shallow embedding of [src/ctf.py].  Python [str] values are modelled
    by [string]; a character is read as the code point of the same number,
    so the development covers texts whose code points are below 256.  On
    that range Python's [str.isspace], the regex classes [\s] and [\d] and
    [str.lower] are the finite tables written out below.

    The external collaborators are oracles: [subprocess.run] (the scanner),
    [requests.post] (the generation backend), [shlex.split] (the tokenizer
    of the standard library) and the lines typed at the console.  The file
    system is a finite map from file names to contents, so a write always
    succeeds; the console is a trace of events.  In the program proper,
    [run_nmap] to [script], every message is taken to render; the module
    [Rendered] gives the scan with the markup library as one more oracle,
    which may refuse a message.  An interrupt from the keyboard is not
    modelled, and the backend's answer is taken to be a string. *)

From Stdlib Require Import Ascii String DecimalString DecimalNat ZArith Lia.
From stdpp Require Import base option list strings gmap.

Local Open Scope stdpp_scope.

(** ** Text primitives of Python used by the program *)

(** [str(n)] for a non-negative [int] such as [len(...)]. *)
Definition str_nat (n : nat) : string :=
  NilZero.string_of_uint (Nat.to_uint n).

(** [str(z)] for an [int], as an f-string formats it. *)
Definition str_int (z : Z) : string :=
  NilZero.string_of_int (Z.to_int z).

(** [c.isspace()] on code points below 256: TAB..CR, FS..US, SPACE, NEL and
    NBSP.  The same table drives [str.strip()] and the regex class [\s]. *)
Definition isspace (c : ascii) : bool :=
  let n := nat_of_ascii c in
  ((9 <=? n) && (n <=? 13)) || ((28 <=? n) && (n <=? 32))
  || (n =? 133)%nat || (n =? 160)%nat.

(** The regex class [\d] on code points below 256: the ten ASCII digits. *)
Definition isdigit (c : ascii) : bool :=
  let n := nat_of_ascii c in (48 <=? n) && (n <=? 57).

(** [c.lower()] on code points below 256: [A-Z] and the accented capitals
    [192..222] except the multiplication sign [215] move up by 32. *)
Definition lower_char (c : ascii) : ascii :=
  let n := nat_of_ascii c in
  if ((65 <=? n) && (n <=? 90))
     || ((192 <=? n) && (n <=? 222) && negb (n =? 215))
  then ascii_of_nat (n + 32) else c.

(** [s.lower()] *)
Fixpoint lower (s : string) : string :=
  match s with
  | EmptyString => EmptyString
  | String c s' => String (lower_char c) (lower s')
  end.

(** [s.lstrip()] *)
Fixpoint lstrip (s : string) : string :=
  match s with
  | EmptyString => EmptyString
  | String c s' => if isspace c then lstrip s' else s
  end.

(** [s.rstrip()]: a character is dropped when it is white space and
    everything after it has been dropped. *)
Fixpoint rstrip (s : string) : string :=
  match s with
  | EmptyString => EmptyString
  | String c s' =>
      match rstrip s' with
      | EmptyString => if isspace c then EmptyString else String c EmptyString
      | r => String c r
      end
  end.

(** [s.strip()] *)
Definition strip (s : string) : string := rstrip (lstrip s).

(** [s.startswith(p)] *)
Fixpoint startswith (p s : string) : bool :=
  match p, s with
  | EmptyString, _ => true
  | String a p', String b s' => Ascii.eqb a b && startswith p' s'
  | String _ _, EmptyString => false
  end.

(** [needle in hay] on strings: some suffix of [hay] starts with [needle]. *)
Fixpoint str_in (needle hay : string) : bool :=
  startswith needle hay ||
  match hay with
  | EmptyString => false
  | String _ hay' => str_in needle hay'
  end.

(** [s.replace(old, new)] for a one-character [old]. *)
Fixpoint replace (old : ascii) (new : string) (s : string) : string :=
  match s with
  | EmptyString => EmptyString
  | String c s' =>
      if Ascii.eqb c old then new +:+ replace old new s'
      else String c (replace old new s')
  end.

(** [sep.join(l)] *)
Definition join (sep : string) (l : list string) : string :=
  String.concat sep l.

(** [list(dict.fromkeys(l))]: the first occurrence of every element, in
    order.  [seen] holds the keys inserted so far. *)
Fixpoint fromkeys_from (seen l : list string) : list string :=
  match l with
  | [] => []
  | x :: l' =>
      if bool_decide (x ∈ seen) then fromkeys_from seen l'
      else x :: fromkeys_from (x :: seen) l'
  end.

Definition fromkeys (l : list string) : list string := fromkeys_from [] l.

(** A Python value used as a condition: [None] and the empty string are
    false. *)
Definition truthy (o : option string) : bool :=
  match o with
  | Some (String _ _) => true
  | _ => false
  end.

(** [str(o)] for an optional string: [None] prints as its name. *)
Definition str_opt (o : option string) : string :=
  match o with
  | Some s => s
  | None => "None"
  end.

(** ** The regular expression of the validator

    [re.findall] is a backtracking matcher.  The fragment the program uses
    has literal characters and greedy one-or-more repetitions of a character
    class, the latter optionally inside a capture group. *)

Inductive atom : Type :=
  | Chr (c : ascii)
  | Plus (captured : bool) (cls : ascii -> bool).

(** The outcome of matching at a position: the captured groups in order and
    the number of characters consumed. *)
Definition match_result : Type := list string * nat.

Definition advance (r : match_result) : match_result := (r.1, S r.2).

(** Greedy [cls+] followed by the continuation [k]: take one character of
    the class, prefer taking more, fall back to stopping here. *)
Fixpoint plus_then (cls : ascii -> bool) (k : string -> option match_result)
    (s : string) : option (string * match_result) :=
  match s with
  | EmptyString => None
  | String a s' =>
      if cls a then
        match plus_then cls k s' with
        | Some (run, r) => Some (String a run, advance r)
        | None =>
            match k s' with
            | Some r => Some (String a EmptyString, advance r)
            | None => None
            end
        end
      else None
  end.

(** Match the pattern at the very start of [s]. *)
Fixpoint match_here (p : list atom) (s : string) : option match_result :=
  match p with
  | [] => Some ([], 0)
  | Chr c :: p' =>
      match s with
      | String a s' =>
          if Ascii.eqb a c then advance <$> match_here p' s' else None
      | EmptyString => None
      end
  | Plus captured cls :: p' =>
      match plus_then cls (match_here p') s with
      | Some (run, (gs, n)) => Some (if captured then run :: gs else gs, n)
      | None => None
      end
  end.

(** [re.findall(p, s)] for a pattern with one group whose matches are never
    empty: scan left to right, and after a match resume where it ended.
    [skip] counts the characters of the current match still to be passed. *)
Fixpoint findall_from (p : list atom) (skip : nat) (s : string) : list string :=
  match s with
  | EmptyString => []
  | String _ s' =>
      match skip with
      | S k => findall_from p k s'
      | 0 =>
          match match_here p s with
          | Some (gs, n) => default EmptyString (head gs) :: findall_from p (pred n) s'
          | None => findall_from p 0 s'
          end
      end
  end.

Definition findall (p : list atom) (s : string) : list string :=
  findall_from p 0 s.

Definition literal (s : string) : list atom :=
  Chr <$> list_ascii_of_string s.

(** [r'(\d+)/tcp\s+open'] *)
Definition open_port_re : list atom :=
  Plus true isdigit :: literal "/tcp" ++ Plus false isspace :: literal "open".

(** ** Scan-result validator *)

(** [check_scan_results(scan_output)]; the argument may be [None]. *)
Definition check_scan_results (scan_output : option string) : bool * string :=
  match scan_output with
  | None => (false, "Scan produced no output")
  | Some out =>
      if negb (truthy scan_output) || (String.length (strip out) <? 50)
      then (false, "Scan produced no output")
      else if str_in "Host seems down" out || str_in "0 hosts up" out
      then (false, "Host appears down (try -Pn flag)")
      else
        let open_ports := findall open_port_re out in
        match open_ports with
        | [] =>
            if str_in "filtered" (lower out) || str_in "closed" (lower out)
            then (false, "No open ports found (all ports closed/filtered)")
            else (false, "No ports detected in scan output")
        | _ :: _ =>
            (true, "Found " +:+ str_nat (length open_ports)
                   +:+ " open port(s): " +:+ join ", " open_ports)
        end
  end.

Arguments check_scan_results : simpl never.

(** ** Effects: console, file system, exceptions *)

(** What the program asks at the console ([console.input]). *)
Inductive prompt : Type :=
  | AskTarget    (* "Target IP/hostname:" *)
  | AskChoice    (* "Choose [2]:" *)
  | AskPorts     (* "Enter ports (e.g., 22,80,443 or 1-1000):" *)
  | AskFlags     (* "Flags:" *)
  | AskProceed.  (* "Proceed with AI analysis anyway? (y/n):" *)

(** What the program shows ([console.print]), one constructor per message
    or block of consecutive messages of the source; spinners and markup are
    presentation and carry no constructor. *)
Inductive event : Type :=
  | Banner
  | Asked (p : prompt)
  | ErrNoTarget
  | Menu
  | WarnAllPorts                      (* mode 2: "Scanning all 65,535 ports" *)
  | CustomHelp
  | WarnInvalidChoice                 (* "Invalid choice, using CTF Full Scan" *)
  | Running (cmdline : string)
  | ScanFailedCode (returncode : Z)
  | ScanStderr (stderr : string)
  | ScanComplete (message : string)
  | ScanIncomplete (message : string)
  | ScanTimedOut
  | ScanError (e : string)
  | ScanFailedBanner
  | ScanOutput (head500 : string)
  | Troubleshooting
  | AnalysisStart
  | AnalysisComplete
  | AnalysisError (analysis : string)
  | AnalysisPanel (target analysis : string)
  | Saved (filename : string)
  | Fatal (e : string).

#[global] Instance prompt_eq_dec : EqDecision prompt.
Proof. solve_decision. Defined.

#[global] Instance event_eq_dec : EqDecision event.
Proof. solve_decision. Defined.

(** The part of the world the program reads and changes: the lines still to
    be typed, the console trace (oldest first) and the files of the working
    directory. *)
Record world : Type := World {
  stdin : list string;
  console : list event;
  files : gmap string string
}.

(** A computation ends with a value or with a raised exception, of which
    the message is kept. *)
Inductive result (A : Type) : Type :=
  | Ok (a : A)
  | Raise (msg : string).
Arguments Ok {A} a.
Arguments Raise {A} msg.

Definition M (A : Type) : Type := world -> result A * world.

Definition ret {A} (a : A) : M A := fun w => (Ok a, w).

Definition bind {A B} (m : M A) (k : A -> M B) : M B :=
  fun w =>
    match m w with
    | (Ok a, w') => k a w'
    | (Raise e, w') => (Raise e, w')
    end.

Definition raise {A} (e : string) : M A := fun w => (Raise e, w).

(** The monad structure, so that stdpp's [x ← m; k] and [m ;; k] apply. *)
#[global] Instance M_ret : MRet M := @ret.
#[global] Instance M_bind : MBind M := fun A B k m => bind m k.

(** [console.print(...)] of a message that renders; [Rendered.show] below
    is the printing that can fail. *)
Definition print (e : event) : M unit :=
  fun w => (Ok tt, World (stdin w) (console w ++ [e]) (files w)).

(** [console.input(prompt)]: the next typed line; at end of input Python
    raises [EOFError]. *)
Definition input (p : prompt) : M string :=
  fun w =>
    match stdin w with
    | line :: rest => (Ok line, World rest (console w ++ [Asked p]) (files w))
    | [] => (Raise "EOF when reading a line",
             World [] (console w ++ [Asked p]) (files w))
    end.

(** [with open(filename, 'w') as f: f.write(...)]: the file is created or
    truncated and holds what was written when the block is left. *)
Definition write_file (filename content : string) : M unit :=
  fun w => (Ok tt, World (stdin w) (console w) (<[filename := content]> (files w))).

(** Outcome of [subprocess.run(cmd, capture_output=True, text=True,
    timeout=...)]. *)
Inductive completed : Type :=
  | CompletedProcess (returncode : Z) (stdout stderr : string)
  | TimeoutExpired
  | RunException (e : string).

(** The JSON body sent to the generation backend. *)
Record payload : Type := Payload {
  model : string;
  prompt_text : string;
  stream : bool;
  num_ctx : Z;
  temperature : Z * Z   (* numerator and denominator of the decimal literal *)
}.

(** Outcome of [requests.post]: a response with its status code and what
    [response.json()['response']] evaluates to, a string as the backend
    gives it or the exception of the decoding, or an exception. *)
Inductive http : Type :=
  | Response (status_code : Z) (json_response : result string)
  | RequestException (e : string).

Definition OLLAMA_API : string := "http://localhost:11434/api/generate".
Definition MODEL : string := "ctf-scanner".

Section Program.

(** [subprocess.run] with its command line and timeout in seconds. *)
Variable subprocess_run : list string -> Z -> completed.
(** [requests.post] with its URL, body and timeout in seconds. *)
Variable requests_post : string -> payload -> Z -> http.
(** [shlex.split]; it raises [ValueError] on unbalanced quoting. *)
Variable shlex_split : string -> result (list string).
(** [sys.argv] *)
Variable argv : list string.

(** [run_nmap(target, options)] returns the pair (scan text, error). *)
Definition run_nmap (target : string) (options : list string)
  : M (option string * option string) :=
  let cmd := "nmap" :: options ++ [target] in
  print (Running (join " " cmd)) ;;
  match subprocess_run cmd 3600 with
  | CompletedProcess returncode stdout stderr =>
      if negb (returncode =? 0)%Z then
        print (ScanFailedCode returncode) ;;
        (if truthy (Some stderr) then print (ScanStderr stderr) else ret tt) ;;
        ret (None, Some "Scan failed")
      else
        let '(is_valid, message) := check_scan_results (Some stdout) in
        if is_valid then
          print (ScanComplete message) ;;
          ret (Some stdout, None)
        else
          print (ScanIncomplete message) ;;
          ret (Some stdout, Some message)
  | TimeoutExpired =>
      print ScanTimedOut ;;
      ret (None, Some "Timeout")
  | RunException e =>
      print (ScanError e) ;;
      ret (None, Some e)
  end.

(** The f-string prompt of [analyze_scan]. *)
Definition analysis_prompt (scan_results target : string) : string :=
  "Target: " +:+ target +:+ "

Nmap Scan Results:
" +:+ scan_results +:+ "

Analyze this scan thoroughly:
1. List all open ports with services and versions
2. Identify vulnerabilities and misconfigurations
3. Provide specific enumeration commands for EACH service found
4. Prioritize by exploitability (quick wins first)
5. Note any unusual or high-value ports
6. Suggest specific exploits if versions are vulnerable

Be comprehensive and actionable. Format with clear markdown headings.
".

(** [analyze_scan(scan_results, target)] *)
Definition analyze_scan (scan_results target : string) : M string :=
  let body := Payload MODEL (analysis_prompt scan_results target)
                      false 8192 (7, 10)%Z in
  match requests_post OLLAMA_API body 300 with
  | Response status_code json_response =>
      if (status_code =? 200)%Z then
        print AnalysisComplete ;;
        match json_response with
        | Ok text => ret text
        | Raise e => ret ("Error: " +:+ e)
        end
      else ret ("Error: " +:+ str_int status_code)
  | RequestException e => ret ("Error: " +:+ e)
  end.

(** The name [save_results] gives the report of a target. *)
Definition report_name (target : string) : string :=
  let safe_target := replace "/" "_" (replace "." "_" target) in
  "analysis_" +:+ safe_target +:+ ".md".

(** What [save_results] writes, the four [f.write] calls in order. *)
Definition report_content (target scan_results analysis : string) : string :=
  ("# CTF Enumeration: " +:+ target +:+ "

---

")
  +:+ analysis
  +:+ "

---

## Raw Nmap Scan

```text
"
  +:+ scan_results
  +:+ "
```
".

(** [save_results(target, scan_results, analysis)] *)
Definition save_results (target scan_results analysis : string) : M string :=
  let filename := report_name target in
  write_file filename (report_content target scan_results analysis) ;;
  ret filename.

(** The fixed option lists of [main]. *)
Definition quick_options : list string := ["-Pn"; "-sV"; "-sC"; "-T4"].
Definition full_options : list string := ["-Pn"; "-sV"; "-sC"; "-p-"; "-T4"].
Definition aggressive_options : list string := ["-Pn"; "-A"; "-T4"].
Definition fallback_options : list string := ["-Pn"; "-sV"; "-sC"].

(** [choice = str(console.input(...).strip() or "2")] *)
Definition read_choice : M string :=
  line ← input AskChoice;
  let answer := strip line in
  ret (if truthy (Some answer) then answer else "2").

(** The [if]/[elif] chain of [main] that builds the scanner options. *)
Definition build_options (choice : string) : M (list string) :=
  if String.eqb choice "1" then ret quick_options
  else if String.eqb choice "2" then
    print WarnAllPorts ;;
    ret full_options
  else if String.eqb choice "3" then ret aggressive_options
  else if String.eqb choice "4" then
    line ← input AskPorts;
    let ports := strip line in
    let ports := if truthy (Some ports) then ports else "1-10000" in
    ret ["-Pn"; "-sV"; "-sC"; "-p" +:+ ports; "-T4"]
  else if String.eqb choice "5" then
    print CustomHelp ;;
    line ← input AskFlags;
    let custom_flags := strip line in
    if truthy (Some custom_flags) then
      match shlex_split custom_flags with
      | Ok options =>
          if bool_decide ("-Pn" ∈ options) then ret options
          else ret ("-Pn" :: options)
      | Raise e => raise e
      end
    else ret fallback_options
  else
    print WarnInvalidChoice ;;
    ret full_options.

(** Mode selection up to and including the removal of duplicates. *)
Definition select_options : M (list string) :=
  choice ← read_choice;
  options ← build_options choice;
  ret (fromkeys options).

(** The block of [main] after the scan: decide whether analysis goes
    ahead.  The result is the text to analyse, or [None] where the source
    returns. *)
Definition scan_gate (scan_results error : option string) : M (option string) :=
  if negb (truthy scan_results) || truthy error then
    print ScanFailedBanner ;;
    (if truthy scan_results
     then print (ScanOutput (String.substring 0 500 (str_opt scan_results)))
     else ret tt) ;;
    print Troubleshooting ;;
    if truthy scan_results && negb (str_in "No open ports" (str_opt error)) then
      line ← input AskProceed;
      let proceed := lower (strip line) in
      if negb (String.eqb proceed "y") then ret None else ret scan_results
    else ret None
  else ret scan_results.

(** The block of [main] from the analysis on. *)
Definition analyze_and_save (target scan_results : string) : M unit :=
  print AnalysisStart ;;
  analysis ← analyze_scan scan_results target;
  if startswith "Error:" analysis then print (AnalysisError analysis)
  else
    print (AnalysisPanel target analysis) ;;
    filename ← save_results target scan_results analysis;
    print (Saved filename).

(** [print_banner()] *)
Definition print_banner : M unit := print Banner.

(** [main()] *)
Definition main : M unit :=
  print_banner ;;
  target ← match argv with
            | _ :: target :: _ => ret target
            | _ => line ← input AskTarget; ret (strip line)
            end;
  if negb (truthy (Some target)) then print ErrNoTarget
  else
    print Menu ;;
    options ← select_options;
    '(scan_results, error) ← run_nmap target options;
    go ← scan_gate scan_results error;
    match go with
    | Some text => analyze_and_save target text
    | None => ret tt
    end.

(** The [__main__] block: an exception that leaves [main] is printed and
    the exit status is 1.  The handler of [KeyboardInterrupt] (lines 245 to
    247, status 1 as well) has no counterpart here. *)
Definition script (w : world) : Z * world :=
  match main w with
  | (Ok _, w') => (0%Z, w')
  | (Raise e, w') => (1%Z, World (stdin w') (console w' ++ [Fatal e]) (files w'))
  end.

End Program.

(** ** Specification vocabulary

    Predicates in which the properties below are stated.  They speak of the
    texts themselves, not of the functions that test them. *)

(** The conditions of the validator's branches, stated on the text. *)
Definition TooShort (scan_output : option string) : Prop :=
  match scan_output with
  | None => True
  | Some out => String.length (strip out) < 50
  end.

Definition Mentions (needle out : string) : Prop :=
  exists pre post, out = pre +:+ needle +:+ post.

Definition HostDown (out : string) : Prop :=
  Mentions "Host seems down" out \/ Mentions "0 hosts up" out.

Definition ClosedOrFiltered (out : string) : Prop :=
  Mentions "filtered" (lower out) \/ Mentions "closed" (lower out).

(** Reading a decimal numeral. *)
Definition read_nat (s : string) : option nat :=
  Nat.of_uint <$> NilZero.uint_of_string s.

(** Every character of [s] is in the class. *)
Fixpoint all_in (cls : ascii -> bool) (s : string) : Prop :=
  match s with
  | EmptyString => True
  | String c s' => cls c = true /\ all_in cls s'
  end.

(** [m] is one occurrence of the open-port pattern and [port] the digits in
    front of "/tcp": digits, "/tcp", white space, "open". *)
Definition PortMatch (m port : string) : Prop :=
  exists ws,
    m = port +:+ "/tcp" +:+ ws +:+ "open"
    /\ port <> "" /\ all_in isdigit port
    /\ ws <> "" /\ all_in isspace ws.

(** No occurrence of the pattern starts at the first character of [s]. *)
Definition NoMatchAtStart (s : string) : Prop :=
  forall m port rest, s = m +:+ rest -> ~ PortMatch m port.

(** [ports] are the groups of the occurrences of the pattern in the text,
    read left to right, each occurrence starting at the first position
    after the previous one where there is one. *)
Inductive OpenPorts : string -> list string -> Prop :=
  | ports_end : OpenPorts "" []
  | ports_skip c s ports :
      NoMatchAtStart (String c s) -> OpenPorts s ports ->
      OpenPorts (String c s) ports
  | ports_match m port rest ports :
      PortMatch m port -> OpenPorts rest ports ->
      OpenPorts (m +:+ rest) (port :: ports).

(** The request sent for a scan text and a target. *)
Definition analysis_request (requests_post : string -> payload -> Z -> http)
    (scan_results target : string) : http :=
  requests_post OLLAMA_API
    (Payload MODEL (analysis_prompt scan_results target) false 8192 (7, 10)%Z)
    300%Z.

(** The line feed. *)
Definition LF : string := String "010"%char "".

(** The target with every "." and "/" turned into "_", character by
    character. *)
Fixpoint sanitized (target : string) : string :=
  match target with
  | EmptyString => EmptyString
  | String c t =>
      String (if bool_decide (c = "."%char \/ c = "/"%char) then "_"%char else c)
             (sanitized t)
  end.

(** The report as the lines of its Markdown source. *)
Definition report_lines (target scan_results analysis : string) : list string :=
  [ "# CTF Enumeration: " +:+ target; ""; "---"; "";
    analysis; ""; "---"; "";
    "## Raw Nmap Scan"; "";
    "```text"; scan_results; "```"; "" ].

(** What the scan invoker returns for each outcome of the scanner. *)
Definition scan_outcome (launched : completed) : option string * option string :=
  match launched with
  | CompletedProcess returncode stdout _ =>
      if decide (returncode = 0%Z) then
        (Some stdout,
         if (check_scan_results (Some stdout)).1 then None
         else Some (check_scan_results (Some stdout)).2)
      else (None, Some "Scan failed")
  | TimeoutExpired => (None, Some "Timeout")
  | RunException e => (None, Some e)
  end.

(** The scan and the gate as [main] chains them. *)
Definition scan_step (subprocess_run : list string -> Z -> completed)
    (target : string) (options : list string) : M (option string) :=
  '(scan_results, error) ← run_nmap subprocess_run target options;
  scan_gate scan_results error.

(** The events are messages of the program, none of them a question. *)
Definition messages_only (shown : list event) : Prop :=
  forall p, Asked p ∉ shown.

(** A computation that leaves the files as they are, and one whose effect
    on the files is within [Q]. *)
Definition keeps_files {A} (m : M A) : Prop :=
  forall w, files (m w).2 = files w.

Definition files_within {A} (Q : gmap string string -> gmap string string -> Prop)
    (m : M A) : Prop :=
  forall w, Q (files w) (files (m w).2).

(** What [main] may do to the files: nothing, or store the report of a
    target for an analysis that does not start with "Error:". *)
Definition report_or_nothing (before after : gmap string string) : Prop :=
  after = before
  \/ exists target scan_results analysis,
       startswith "Error:" analysis = false
       /\ after = <[report_name target
                    := report_content target scan_results analysis]> before.

(** What [main] may do to the files, with where the report comes from: the
    text is the output of a scanner run that ended with code zero, the
    analysis the decoded answer of the backend to the request for that text,
    with status 200. *)
Definition report_from_scan_and_backend
    (subprocess_run : list string -> Z -> completed)
    (requests_post : string -> payload -> Z -> http)
    (before after : gmap string string) : Prop :=
  after = before
  \/ exists target options scan_results stderr analysis,
       subprocess_run ("nmap" :: options ++ [target]) 3600%Z
         = CompletedProcess 0 scan_results stderr
       /\ scan_results <> ""
       /\ analysis_request requests_post scan_results target
          = Response 200 (Ok analysis)
       /\ startswith "Error:" analysis = false
       /\ after = <[report_name target
                    := report_content target scan_results analysis]> before.

(** [s] is empty or starts with a character outside the class. *)
Definition starts_outside (cls : ascii -> bool) (s : string) : Prop :=
  match s with
  | EmptyString => True
  | String c _ => cls c = false
  end.

(** ** The scan with the rendering of its messages

    [console.print] reads its argument as console markup, and the markup
    library raises [MarkupError] on a closing tag that matches no open tag.
    The program puts text from outside between its own tags as it comes:
    the command line (line 44), the error output of the scanner (line 54),
    the message of an exception (line 71) and the head of the scan text
    (line 202).  Whether such a message renders is up to the library, an
    oracle here, as is the text of the error; a message that does not render
    raises before anything of it is shown.  The messages made of the
    program's own text (fixed text, an exit code, a reason of the validator)
    hold the program's own balanced tags only and always render.

    [run_nmap], [scan_gate] and [scan_step] above are the definitions below
    when every message renders. *)
Module Rendered.
Section Program.

(** Whether the markup library renders the message, and the text of the
    [MarkupError] it raises when it does not. *)
Variable renders : event -> bool.
Variable markup_error : event -> string.
(** [subprocess.run] with its command line and timeout in seconds. *)
Variable subprocess_run : list string -> Z -> completed.

(** The messages that hold text from outside the program between the tags. *)
Definition interpolated (e : event) : bool :=
  match e with
  | Running _ | ScanStderr _ | ScanError _ | ScanOutput _
  | AnalysisError _ | AnalysisPanel _ _ | Saved _ | Fatal _ => true
  | _ => false
  end.

(** [console.print(...)] *)
Definition show (e : event) : M unit :=
  fun w =>
    if interpolated e && negb (renders e) then (Raise (markup_error e), w)
    else print e w.

(** [try: body / except Exception as e: handler] *)
Definition try_except {A} (body : M A) (handler : string -> M A) : M A :=
  fun w =>
    match body w with
    | (Ok a, w') => (Ok a, w')
    | (Raise e, w') => handler e w'
    end.

(** [run_nmap(target, options)].  The first message is shown before the
    [try]; what is raised in the [try], by [subprocess.run] or by a message
    that does not render, goes to the handlers; what a handler raises leaves
    the function. *)
Definition run_nmap (target : string) (options : list string)
  : M (option string * option string) :=
  let cmd := "nmap" :: options ++ [target] in
  let handler (e : string) : M (option string * option string) :=
    show (ScanError e) ;;
    ret (None, Some e) in
  show (Running (join " " cmd)) ;;
  match subprocess_run cmd 3600 with
  | CompletedProcess returncode stdout stderr =>
      try_except
        (if negb (returncode =? 0)%Z then
           show (ScanFailedCode returncode) ;;
           (if truthy (Some stderr) then show (ScanStderr stderr) else ret tt) ;;
           ret (None, Some "Scan failed")
         else
           let '(is_valid, message) := check_scan_results (Some stdout) in
           if is_valid then
             show (ScanComplete message) ;;
             ret (Some stdout, None)
           else
             show (ScanIncomplete message) ;;
             ret (Some stdout, Some message))
        handler
  | TimeoutExpired =>
      show ScanTimedOut ;;
      ret (None, Some "Timeout")
  | RunException e => handler e
  end.

(** The block of [main] after the scan.  [ScanOutput] stands for the label
    "Scan output:" and the head of the text under it; when the head does
    not render the label alone has been shown, which the trace leaves out. *)
Definition scan_gate (scan_results error : option string) : M (option string) :=
  if negb (truthy scan_results) || truthy error then
    show ScanFailedBanner ;;
    (if truthy scan_results
     then show (ScanOutput (String.substring 0 500 (str_opt scan_results)))
     else ret tt) ;;
    show Troubleshooting ;;
    if truthy scan_results && negb (str_in "No open ports" (str_opt error)) then
      line ← input AskProceed;
      let proceed := lower (strip line) in
      if negb (String.eqb proceed "y") then ret None else ret scan_results
    else ret None
  else ret scan_results.

(** The scan and the gate as [main] chains them. *)
Definition scan_step (target : string) (options : list string) : M (option string) :=
  '(scan_results, error) ← run_nmap target options;
  scan_gate scan_results error.

(** What the handler of line 70 ends with for an exception of message [e]. *)
Definition handled (e : string) : result (option string * option string) :=
  if renders (ScanError e) then Ok (None, Some e)
  else Raise (markup_error (ScanError e)).

(** What the scan invoker ends with for each outcome of the scanner. *)
Definition scan_result (cmdline : string) (launched : completed)
  : result (option string * option string) :=
  if renders (Running cmdline) then
    match launched with
    | CompletedProcess returncode stdout stderr =>
        if decide (returncode = 0%Z) then Ok (scan_outcome launched)
        else if truthy (Some stderr) && negb (renders (ScanStderr stderr))
        then handled (markup_error (ScanStderr stderr))
        else Ok (None, Some "Scan failed")
    | TimeoutExpired => Ok (None, Some "Timeout")
    | RunException e => handled e
    end
  else Raise (markup_error (Running cmdline)).

End Program.
End Rendered.

(** The list with every element kept where it first occurs and dropped
    where it occurs again. *)
Fixpoint first_occurrences (l : list string) : list string :=
  match l with
  | [] => []
  | x :: l' => x :: filter (fun y => y <> x) (first_occurrences l')
  end.

(** ** Sample inputs

    Texts, collaborators and a tokenizer on which the properties below are
    run. *)

Definition scan_two_ports : string :=
  "Nmap scan report for 10.10.10.5
PORT   STATE SERVICE
80/tcp open http
22/tcp open ssh
Nmap done: 1 IP address (1 host up)".

Definition scan_host_down : string :=
  "Note: Host seems down. If it is really up, try -Pn
80/tcp open http".

Definition scan_all_closed : string :=
  "Nmap scan report for 10.10.10.5
All 65535 scanned ports on 10.10.10.5 are closed".

Definition scan_nothing : string :=
  "Nmap scan report for 10.10.10.5
Nmap done: 1 IP address (1 host up) scanned".

(** A scanner with a fixed outcome and a backend with a fixed answer. *)
Definition scanner (outcome : completed) : list string -> Z -> completed :=
  fun _ _ => outcome.

Definition backend (answer : http) : string -> payload -> Z -> http :=
  fun _ _ _ => answer.

(** The split at blanks: what [shlex.split] does on flags separated by
    spaces that have no quote and no backslash. *)
Definition split_words (flags : string) : result (list string) :=
  Ok (String.words flags).

(** A world with the given lines to type, an empty console and no file. *)
Definition typing (lines : list string) : world := World lines [] ∅.

(** The text from outside that a message holds. *)
Definition event_text (e : event) : string :=
  match e with
  | Running s | ScanStderr s | ScanError s | ScanOutput s
  | AnalysisError s | Saved s | Fatal s => s
  | AnalysisPanel target _ => target
  | _ => ""
  end.

(** A markup library that refuses the messages whose text from outside
    holds the start of a closing tag, and quotes the text in its error, as
    the library used by the program quotes the tag. *)
Definition no_closing_tag (e : event) : bool :=
  negb (str_in "[/" (event_text e)).

Definition closing_tag_error (e : event) : string :=
  "closing tag in '" +:+ event_text e +:+ "' doesn't match any open tag".

(** A tokenizer that rejects one line of flags, as [shlex.split] rejects a
    line with a quote that is not closed, and splits the others at blanks. *)
Definition split_rejecting (bad e flags : string) : result (list string) :=
  if String.eqb flags bad then Raise e else split_words flags.

(** ** Proof tools *)

(** Unfolding of the monad operations. *)
Ltac run_monad :=
  unfold mbind, M_bind, bind, print, ret, raise, write_file; cbn.

(** The listed events hold no question. *)
Ltac no_question :=
  let p := fresh "p" in
  let Hp := fresh "Hp" in
  intros p Hp;
  repeat (apply elem_of_cons in Hp as [Hp|Hp]; [discriminate Hp|]);
  by apply elem_of_nil in Hp.

(** ** Facts about the text primitives *)

Lemma app_cons (c : ascii) (a b : string) : String c a +:+ b = String c (a +:+ b).
Proof. reflexivity. Qed.

Lemma app_empty_l (s : string) : "" +:+ s = s.
Proof. reflexivity. Qed.

Lemma app_empty_r (s : string) : s +:+ "" = s.
Proof. induction s as [|c s IH]; [done|]. by rewrite app_cons, IH. Qed.

Lemma app_assoc (a b c : string) : (a +:+ b) +:+ c = a +:+ (b +:+ c).
Proof. induction a as [|x a IH]; [done|]. by rewrite !app_cons, IH. Qed.

Lemma length_app (a b : string) :
  String.length (a +:+ b) = String.length a + String.length b.
Proof. induction a as [|x a IH]; [done|]. rewrite app_cons. cbn. by rewrite IH. Qed.

(** Appends are compared after bringing them to right-nested form. *)
Ltac norm_app := repeat rewrite ?app_assoc, ?app_cons, ?app_empty_l, ?app_empty_r.

(** The primitives on small inputs. *)
Example strip_both_ends :
  strip (String "009" "  -sV  -p 80 " +:+ LF) = "-sV  -p 80".
Proof. reflexivity. Qed.

Example strip_blank : strip "   " = "".
Proof. reflexivity. Qed.

Example lower_mixed : lower "All Ports FILTERED" = "all ports filtered".
Proof. reflexivity. Qed.

Example str_in_inside : str_in "0 hosts up" "Nmap done: 1 IP address (0 hosts up)" = true.
Proof. reflexivity. Qed.

Example replace_dots : replace "." "_" "10.10.10.5" = "10_10_10_5".
Proof. reflexivity. Qed.

Example fromkeys_first_occurrences :
  fromkeys ["-sV"; "-Pn"; "-sV"; "-T4"; "-Pn"] = ["-sV"; "-Pn"; "-T4"].
Proof. reflexivity. Qed.

Example str_int_status : str_int 500 = "500" /\ str_int 0 = "0" /\ str_int (-1) = "-1".
Proof. repeat split. Qed.

Example str_nat_count : str_nat 0 = "0" /\ str_nat 12 = "12".
Proof. repeat split. Qed.

(** The pattern needs digits right before "/tcp" and white space, any amount
    of it, before "open"; an occurrence is not searched again. *)
Example findall_cases :
  findall open_port_re "12x34/tcp   open 443/tcp open5/tcp open 8080/tcp closed 21/tcpopen"
  = ["34"; "443"; "5"].
Proof. vm_compute. reflexivity. Qed.

(** [startswith] is the prefix relation. *)
Lemma startswith_spec (p s : string) :
  startswith p s = true <-> exists rest, s = p +:+ rest.
Proof.
  revert s. induction p as [|a p IH]; intros s; cbn.
  - split; [intros _; by exists s | done].
  - destruct s as [|b s].
    + split; [done | intros [rest H]; discriminate H].
    + rewrite andb_true_iff, Ascii.eqb_eq, IH. split.
      * intros [-> [rest ->]]. by exists rest.
      * intros [rest H]. injection H as -> ->. eauto.
Qed.

(** [str_in] is the substring relation of Python's [in]. *)
Lemma str_in_spec (needle hay : string) :
  str_in needle hay = true <-> exists pre post, hay = pre +:+ needle +:+ post.
Proof.
  induction hay as [|c hay IH]; cbn.
  - rewrite orb_false_r, startswith_spec. split.
    + intros [rest H]. by exists "", rest.
    + intros [pre [post H]]. destruct pre; [by exists post | discriminate H].
  - rewrite orb_true_iff, startswith_spec, IH. split.
    + intros [[rest H] | [pre [post H]]].
      * by exists "", rest.
      * exists (String c pre), post. by rewrite H.
    + intros [pre [post H]]. destruct pre as [|x pre].
      * left. by exists post.
      * right. injection H as _ H. by exists pre, post.
Qed.

Lemma str_in_false (needle hay : string) :
  str_in needle hay = false <-> ~ exists pre post, hay = pre +:+ needle +:+ post.
Proof. rewrite <- str_in_spec. by destruct (str_in needle hay). Qed.

(** The truth value of a string is its non-emptiness. *)
Lemma truthy_Some (s : string) : truthy (Some s) = true <-> s <> "".
Proof. by destruct s. Qed.

(** ** The validator *)

Example check_two_ports :
  check_scan_results
    (Some "Nmap scan report for 10.10.10.5
PORT   STATE SERVICE
80/tcp open http
22/tcp open ssh
Nmap done: 1 IP address (1 host up)")
  = (true, "Found 2 open port(s): 80, 22").
Proof. vm_compute. reflexivity. Qed.

Lemma TooShort_test (out : string) :
  negb (truthy (Some out)) || (String.length (strip out) <? 50) = true
  <-> TooShort (Some out).
Proof.
  cbn -[Nat.ltb]. rewrite orb_true_iff, Nat.ltb_lt. split; [|auto].
  intros [H|H]; [|done]. destruct out; [cbn; lia | done].
Qed.

Lemma HostDown_test (out : string) :
  str_in "Host seems down" out || str_in "0 hosts up" out = true <-> HostDown out.
Proof. unfold HostDown, Mentions. by rewrite orb_true_iff, !str_in_spec. Qed.

Lemma ClosedOrFiltered_test (out : string) :
  str_in "filtered" (lower out) || str_in "closed" (lower out) = true
  <-> ClosedOrFiltered out.
Proof. unfold ClosedOrFiltered, Mentions. by rewrite orb_true_iff, !str_in_spec. Qed.

(** The tests, read in the negative. *)
Lemma not_TooShort (out : string) :
  (50 <=? String.length (strip out)) = true -> ~ TooShort (Some out).
Proof. intros H%Nat.leb_le. cbn. lia. Qed.

Lemma not_Mentions (needle out : string) :
  str_in needle out = false -> ~ Mentions needle out.
Proof. intros H. by apply str_in_false. Qed.

Lemma not_HostDown (out : string) :
  str_in "Host seems down" out || str_in "0 hosts up" out = false -> ~ HostDown out.
Proof. intros H Hd%HostDown_test. congruence. Qed.

Lemma not_ClosedOrFiltered (out : string) :
  str_in "filtered" (lower out) || str_in "closed" (lower out) = false ->
  ~ ClosedOrFiltered out.
Proof. intros H Hd%ClosedOrFiltered_test. congruence. Qed.

(** C2: the validator is a priority chain.  An absent or short text gives
    "no output" whatever it holds; otherwise a host-down indicator gives
    "host appears down" whatever ports are listed; otherwise one or more
    open-port matches give success; otherwise a mention of filtered or
    closed ports gives "no open ports"; otherwise "no ports detected". *)
Theorem check_scan_results_priority (scan_output : option string) :
  (TooShort scan_output ->
     check_scan_results scan_output = (false, "Scan produced no output"))
  /\ (forall out, scan_output = Some out -> ~ TooShort scan_output ->
        (HostDown out ->
           check_scan_results scan_output
           = (false, "Host appears down (try -Pn flag)"))
        /\ (~ HostDown out -> findall open_port_re out <> [] ->
              (check_scan_results scan_output).1 = true)
        /\ (~ HostDown out -> findall open_port_re out = [] ->
              ClosedOrFiltered out ->
              check_scan_results scan_output
              = (false, "No open ports found (all ports closed/filtered)"))
        /\ (~ HostDown out -> findall open_port_re out = [] ->
              ~ ClosedOrFiltered out ->
              check_scan_results scan_output
              = (false, "No ports detected in scan output"))).
Proof.
  split.
  - destruct scan_output as [out|]; [|done]. intros H%TooShort_test.
    unfold check_scan_results. by rewrite H.
  - intros out -> Hlen. unfold check_scan_results.
    destruct (negb _ || _) eqn:E1; [by apply TooShort_test in E1|].
    destruct (str_in "Host seems down" out || _) eqn:E2.
    + apply HostDown_test in E2. repeat split; done.
    + assert (~ HostDown out) as Hup by (rewrite <- HostDown_test; congruence).
      split; [done|]. destruct (findall open_port_re out) as [|p ps] eqn:E3.
      * destruct (str_in "filtered" _ || _) eqn:E4.
        -- apply ClosedOrFiltered_test in E4. repeat split; done.
        -- assert (~ ClosedOrFiltered out)
             by (rewrite <- ClosedOrFiltered_test; congruence).
           repeat split; done.
      * repeat split; done.
Qed.

(** The chain on an absent text, a short one, a host-down notice that also
    lists an open port, a port listing, closed ports and a text without
    ports. *)
Lemma check_scan_results_priority_witness :
  check_scan_results None = (false, "Scan produced no output")
  /\ check_scan_results (Some "80/tcp open http") = (false, "Scan produced no output")
  /\ (findall open_port_re scan_host_down = ["80"]
      /\ check_scan_results (Some scan_host_down)
         = (false, "Host appears down (try -Pn flag)"))
  /\ (check_scan_results (Some scan_two_ports)).1 = true
  /\ check_scan_results (Some scan_all_closed)
     = (false, "No open ports found (all ports closed/filtered)")
  /\ check_scan_results (Some scan_nothing)
     = (false, "No ports detected in scan output").
Proof.
  split; [apply (check_scan_results_priority None); exact I|].
  split.
  { apply (check_scan_results_priority (Some "80/tcp open http")). vm_compute. lia. }
  split.
  { split; [vm_compute; reflexivity|].
    destruct (check_scan_results_priority (Some scan_host_down)) as [_ H].
    destruct (H scan_host_down eq_refl) as (Hdown & _).
    - apply not_TooShort. vm_compute. reflexivity.
    - apply Hdown, HostDown_test. vm_compute. reflexivity. }
  split.
  { destruct (check_scan_results_priority (Some scan_two_ports)) as [_ H].
    destruct (H scan_two_ports eq_refl) as (_ & Hopen & _).
    - apply not_TooShort. vm_compute. reflexivity.
    - apply Hopen; [apply not_HostDown; vm_compute; reflexivity|].
      vm_compute. discriminate. }
  split.
  { destruct (check_scan_results_priority (Some scan_all_closed)) as [_ H].
    destruct (H scan_all_closed eq_refl) as (_ & _ & Hclosed & _).
    - apply not_TooShort. vm_compute. reflexivity.
    - apply Hclosed; [apply not_HostDown; vm_compute; reflexivity| |].
      + vm_compute. reflexivity.
      + apply ClosedOrFiltered_test. vm_compute. reflexivity. }
  destruct (check_scan_results_priority (Some scan_nothing)) as [_ H].
  destruct (H scan_nothing eq_refl) as (_ & _ & _ & Hnone).
  - apply not_TooShort. vm_compute. reflexivity.
  - apply Hnone; [apply not_HostDown; vm_compute; reflexivity| |].
    + vm_compute. reflexivity.
    + apply not_ClosedOrFiltered. vm_compute. reflexivity.
Defined.

(** ** The matcher against the declarative pattern *)

Lemma literal_cons (c : ascii) (l : string) :
  literal (String c l) = Chr c :: literal l.
Proof. reflexivity. Qed.

(** A literal prefix of a pattern matches exactly itself. *)
Lemma match_here_literal (l : string) (p : list atom) (s : string) (r : match_result) :
  match_here (literal l ++ p) s = Some r
  <-> exists rest r', s = l +:+ rest /\ match_here p rest = Some r'
                      /\ r = (r'.1, String.length l + r'.2).
Proof.
  revert s r. induction l as [|c l IH]; intros s r.
  - change (literal "" ++ p) with p. split.
    + intros H. exists s, r. by destruct r.
    + intros (rest & r' & -> & H & ->). by destruct r'.
  - rewrite literal_cons. cbn [app match_here]. destruct s as [|a s].
    { split; [done | intros (? & ? & ? & _); discriminate]. }
    destruct (Ascii.eqb_spec a c) as [->|Hne].
    + destruct (match_here (literal l ++ p) s) as [r0|] eqn:E; cbn.
      * apply IH in E as (rest & r' & -> & Hp & ->). split.
        -- intros [= <-]. by exists rest, r'.
        -- intros (rest2 & r2 & Hs & Hp2 & ->). rewrite app_cons in Hs.
           injection Hs as Hs. apply (inj _) in Hs as <-.
           rewrite Hp in Hp2. by injection Hp2 as <-.
      * split; [done|]. intros (rest & r' & Hs & Hp & _).
        rewrite app_cons in Hs. injection Hs as ->.
        assert (match_here (literal l ++ p) (l +:+ rest) = Some (r'.1, String.length l + r'.2))
          as Hc by (apply IH; eauto).
        congruence.
    + split; [done|]. intros (rest & r' & Hs & _).
      rewrite app_cons in Hs. by injection Hs as -> _.
Qed.

(** A greedy repetition whose continuation refuses to start inside the
    class takes the whole run of the class: backtracking never succeeds. *)
Lemma plus_then_spec (cls : ascii -> bool) (k : string -> option match_result)
    (s run : string) (r : match_result) :
  (forall c t, cls c = true -> k (String c t) = None) ->
  plus_then cls k s = Some (run, r)
  <-> run <> "" /\ all_in cls run
      /\ exists rest r', s = run +:+ rest /\ k rest = Some r'
                         /\ r = (r'.1, String.length run + r'.2).
Proof.
  intros Hk. split.
  - revert run r. induction s as [|a s IH]; intros run r; cbn; [done|].
    destruct (cls a) eqn:Ha; [|done].
    destruct (plus_then cls k s) as [[run0 r0]|] eqn:E.
    + intros [= <- <-]. destruct (IH _ _ eq_refl) as (_ & Hall & rest & r' & -> & Hr & ->).
      repeat split; [done..|]. by exists rest, r'.
    + destruct (k s) as [r0|] eqn:E2; [|done]. intros [= <- <-].
      repeat split; [done..|]. by exists s, r0.
  - intros (Hne & Hall & rest & r' & -> & Hr & ->).
    induction run as [|a run IH]; [done|]. destruct Hall as [Ha Hall].
    rewrite app_cons. cbn. rewrite Ha. destruct run as [|b run].
    + rewrite app_empty_l. assert (plus_then cls k rest = None) as ->.
      { destruct rest as [|c t]; [done|]. cbn.
        destruct (cls c) eqn:Hc; [|done]. by rewrite Hk in Hr. }
      by rewrite Hr.
    + by rewrite IH.
Qed.

Lemma digit_not_slash (c : ascii) : isdigit c = true -> Ascii.eqb c "/" = false.
Proof. by destruct c as [[] [] [] [] [] [] [] []]. Qed.

Lemma space_not_o (c : ascii) : isspace c = true -> Ascii.eqb c "o" = false.
Proof. by destruct c as [[] [] [] [] [] [] [] []]. Qed.

(** The matcher succeeds at the start of [s] exactly when [s] starts with
    an occurrence of the pattern; the group is its port and the length its
    length. *)
Lemma match_here_open_port (s : string) (r : match_result) :
  match_here open_port_re s = Some r
  <-> exists m port rest, s = m +:+ rest /\ PortMatch m port
                          /\ r = ([port], String.length m).
Proof.
  unfold open_port_re. cbn [match_here].
  set (k2 := match_here (literal "open")).
  set (k1 := match_here (literal "/tcp" ++ Plus false isspace :: literal "open")).
  assert (forall c t, isspace c = true -> k2 (String c t) = None) as Hk2.
  { intros c t Hc. unfold k2. cbn. by rewrite (space_not_o c Hc). }
  assert (forall c t, isdigit c = true -> k1 (String c t) = None) as Hk1.
  { intros c t Hc. unfold k1. cbn. by rewrite (digit_not_slash c Hc). }
  assert (forall t r2, k2 t = Some r2 <-> exists rest, t = "open" +:+ rest /\ r2 = ([], 4)) as Ek2.
  { intros t r2. unfold k2. rewrite <- (app_nil_r (literal "open")).
    rewrite match_here_literal. cbn. split.
    - intros (rest & r' & -> & [= <-] & ->). by exists rest.
    - intros (rest & -> & ->). by exists rest, ([], 0). }
  assert (forall t r1, k1 t = Some r1 <->
            exists ws rest, t = "/tcp" +:+ ws +:+ "open" +:+ rest
              /\ ws <> "" /\ all_in isspace ws
              /\ r1 = ([], 4 + (String.length ws + 4))) as Ek1.
  { intros t r1. unfold k1. rewrite match_here_literal. cbn [match_here].
    fold k2. split.
    - intros (rest & r' & -> & H & ->).
      destruct (plus_then isspace k2 rest) as [[ws [gs n]]|] eqn:E; [|done].
      injection H as <-. apply (plus_then_spec _ _ _ _ _ Hk2) in E
        as (Hne & Hall & rest2 & r2 & -> & Hr2 & [= -> ->]).
      apply Ek2 in Hr2 as (rest3 & -> & ->). by exists ws, rest3.
    - intros (ws & rest & -> & Hne & Hall & ->).
      exists (ws +:+ "open" +:+ rest), ([], String.length ws + 4).
      split; [done|]. split; [|done].
      assert (plus_then isspace k2 (ws +:+ "open" +:+ rest)
              = Some (ws, ([], String.length ws + 4))) as ->; [|done].
      apply (plus_then_spec _ _ _ _ _ Hk2). repeat split; [done..|].
      exists ("open" +:+ rest), ([], 4). split; [done|]. split; [|done].
      apply Ek2. eauto. }
  split.
  - destruct (plus_then isdigit k1 s) as [[port [gs n]]|] eqn:E; [|done].
    intros [= <-]. apply (plus_then_spec _ _ _ _ _ Hk1) in E
      as (Hne & Hall & rest & r1 & -> & Hr1 & [= -> ->]).
    apply Ek1 in Hr1 as (ws & rest2 & -> & Hws & Hsp & ->).
    exists (port +:+ "/tcp" +:+ ws +:+ "open"), port, rest2.
    split; [by rewrite !app_assoc|]. split; [by exists ws|].
    cbn. rewrite !length_app. cbn. do 2 f_equal.
  - intros (m & port & rest & -> & (ws & -> & Hne & Hall & Hws & Hsp) & ->).
    assert (plus_then isdigit k1 ((port +:+ "/tcp" +:+ ws +:+ "open") +:+ rest)
            = Some (port, ([], String.length port + (4 + (String.length ws + 4)))))
      as ->.
    { apply (plus_then_spec _ _ _ _ _ Hk1). repeat split; [done..|].
      exists ("/tcp" +:+ ws +:+ "open" +:+ rest), ([], 4 + (String.length ws + 4)).
      split; [by rewrite !app_assoc|]. split; [|done]. apply Ek1. by exists ws, rest. }
    rewrite !length_app. cbn. do 3 f_equal.
Qed.

Lemma PortMatch_cons (m port : string) :
  PortMatch m port -> exists c m', m = String c m'.
Proof.
  intros (ws & -> & Hne & _). destruct port as [|c port]; [done|].
  rewrite app_cons. eauto.
Qed.

(** Either an occurrence starts at the first character or none does, and
    the matcher tells which. *)
Lemma match_here_None (s : string) :
  match_here open_port_re s = None <-> NoMatchAtStart s.
Proof.
  split.
  - intros H m port rest -> Hm.
    assert (match_here open_port_re (m +:+ rest) = Some ([port], String.length m))
      as Hs by (apply match_here_open_port; by exists m, port, rest).
    congruence.
  - intros H. destruct (match_here open_port_re s) as [r|] eqn:E; [|done].
    apply match_here_open_port in E as (m & port & rest & -> & Hm & _).
    by destruct (H m port rest).
Qed.

Lemma findall_from_skip (p : list atom) (a rest : string) :
  findall_from p (String.length a) (a +:+ rest) = findall_from p 0 rest.
Proof. induction a as [|c a IH]; [done|]. by rewrite app_cons. Qed.

(** The two ways [findall] moves on: over an occurrence, and over a
    character where none starts. *)
Lemma findall_match (m port rest : string) :
  PortMatch m port ->
  findall open_port_re (m +:+ rest) = port :: findall open_port_re rest.
Proof.
  intros Hm. destruct (PortMatch_cons _ _ Hm) as (c & m' & ->).
  assert (match_here open_port_re (String c m' +:+ rest)
          = Some ([port], String.length (String c m'))) as Hs
    by (apply match_here_open_port; by exists (String c m'), port, rest).
  unfold findall. rewrite app_cons in *. cbn [findall_from]. rewrite Hs.
  cbn. by rewrite findall_from_skip.
Qed.

Lemma findall_skip (c : ascii) (s : string) :
  NoMatchAtStart (String c s) ->
  findall open_port_re (String c s) = findall open_port_re s.
Proof.
  intros H%match_here_None. unfold findall. cbn [findall_from]. by rewrite H.
Qed.

(** [re.findall] computes the occurrences of the pattern left to right. *)
Lemma findall_sound (s : string) (ports : list string) :
  OpenPorts s ports -> findall open_port_re s = ports.
Proof.
  induction 1 as [|c s ports Hno _ IH|m port rest ports Hm _ IH].
  - done.
  - by rewrite findall_skip.
  - by rewrite (findall_match _ _ _ Hm), IH.
Qed.

Lemma findall_complete (s : string) : OpenPorts s (findall open_port_re s).
Proof.
  remember (String.length s) as n eqn:Hn. revert s Hn.
  induction n as [n IH] using lt_wf_ind. intros s ->.
  destruct s as [|c s]; [constructor|].
  destruct (match_here open_port_re (String c s)) as [r|] eqn:E.
  - apply match_here_open_port in E as (m & port & rest & Hs & Hm & _).
    rewrite Hs, (findall_match _ _ _ Hm). constructor; [done|].
    apply (IH (String.length rest)); [|done].
    destruct (PortMatch_cons _ _ Hm) as (c' & m' & ->).
    rewrite Hs, length_app. cbn. lia.
  - apply match_here_None in E. rewrite (findall_skip _ _ E).
    constructor; [done|]. apply (IH (String.length s)); [cbn; lia | done].
Qed.

Lemma findall_OpenPorts (s : string) (ports : list string) :
  OpenPorts s ports <-> findall open_port_re s = ports.
Proof.
  split; [apply findall_sound | intros <-; apply findall_complete].
Qed.

(** The decimal count printed in the reason reads back as the number. *)
Lemma read_str_nat (n : nat) : read_nat (str_nat n) = Some n.
Proof.
  unfold read_nat, str_nat. destruct (Nat.to_uint n) eqn:E;
    [by rewrite <- (Unsigned.of_to n), E | ..];
    rewrite NilZero.usu by done; cbn [fmap option_fmap option_map];
    by rewrite <- E, Unsigned.of_to.
Qed.

Lemma str_nat_inj (n m : nat) : str_nat n = str_nat m -> n = m.
Proof.
  intros H. assert (Some n = Some m) as [= ->]; [|done].
  by rewrite <- (read_str_nat n), <- (read_str_nat m), H.
Qed.

(** C3: a text of at least 50 trimmed characters without host-down
    indicator in which the open-port pattern occurs is classified as
    succeeded; the reason states the number of occurrences and lists their
    ports, separated by ", ", in the order of the occurrences. *)
Theorem check_scan_results_open_ports (out : string) (ports : list string) :
  ~ TooShort (Some out) -> ~ HostDown out ->
  OpenPorts out ports -> ports <> [] ->
  check_scan_results (Some out)
  = (true, "Found " +:+ str_nat (length ports) +:+ " open port(s): "
           +:+ join ", " ports).
Proof.
  intros Hlen Hup Hports%findall_sound Hne. unfold check_scan_results.
  destruct (negb _ || _) eqn:E1; [by apply TooShort_test in E1|].
  destruct (str_in "Host seems down" out || _) eqn:E2;
    [by apply HostDown_test in E2|].
  rewrite Hports. by destruct ports.
Qed.

(** The scenario of the specification: port 80, then port 22. *)
Lemma check_scan_results_open_ports_witness :
  OpenPorts scan_two_ports ["80"; "22"]
  /\ check_scan_results (Some scan_two_ports)
     = (true, "Found 2 open port(s): 80, 22").
Proof.
  assert (OpenPorts scan_two_ports ["80"; "22"]) as Hports.
  { apply findall_OpenPorts. vm_compute. reflexivity. }
  split; [exact Hports|].
  apply (check_scan_results_open_ports scan_two_ports ["80"; "22"]).
  - apply not_TooShort. vm_compute. reflexivity.
  - apply not_HostDown. vm_compute. reflexivity.
  - exact Hports.
  - discriminate.
Defined.

(** ** The scan invoker *)

(** The four outcomes of the scan invoker when every message renders.  It
    touches neither the pending input nor the files.  On timeout it returns
    no text and "Timeout"; on a non-zero exit code no text and "Scan failed";
    on another exception no text and the exception's message; on exit code
    zero the captured output, with no error when the validator accepts it
    and the validator's reason when it does not. *)
Lemma run_nmap_outcomes (subprocess_run : list string -> Z -> completed)
    (target : string) (options : list string) (w : world) :
  let launched := subprocess_run ("nmap" :: options ++ [target]) 3600%Z in
  let r := run_nmap subprocess_run target options w in
  stdin r.2 = stdin w /\ files r.2 = files w
  /\ (launched = TimeoutExpired -> r.1 = Ok (None, Some "Timeout"))
  /\ (forall returncode stdout stderr,
        launched = CompletedProcess returncode stdout stderr ->
        returncode <> 0%Z -> r.1 = Ok (None, Some "Scan failed"))
  /\ (forall e, launched = RunException e -> r.1 = Ok (None, Some e))
  /\ (forall stdout stderr,
        launched = CompletedProcess 0 stdout stderr ->
        r.1 = Ok (Some stdout,
                  if (check_scan_results (Some stdout)).1 then None
                  else Some (check_scan_results (Some stdout)).2)).
Proof.
  intros launched r. subst r. unfold run_nmap. fold launched.
  destruct launched as [returncode stdout stderr| |e] eqn:E.
  - destruct (Z.eqb_spec returncode 0) as [->|Hne]; cbn [negb].
    + destruct (check_scan_results (Some stdout)) as [[] message] eqn:Ec;
        run_monad; repeat split; try done; intros; simplify_eq; by rewrite ?Ec.
    + destruct (truthy (Some stderr)); run_monad;
        repeat split; try done; intros; by simplify_eq.
  - run_monad. repeat split; done.
  - run_monad. repeat split; try done; intros; by simplify_eq.
Qed.

(** ** The scan invoker with the rendering of its messages *)

Lemma show_print (renders : event -> bool) (markup_error : event -> string)
    (e : event) :
  Rendered.interpolated e = false \/ renders e = true ->
  Rendered.show renders markup_error e = print e.
Proof.
  unfold Rendered.show. intros [-> | ->]; [done|]. by rewrite andb_false_r.
Qed.

Lemma show_raise (renders : event -> bool) (markup_error : event -> string)
    (e : event) (w : world) :
  Rendered.interpolated e = true -> renders e = false ->
  Rendered.show renders markup_error e w = (Raise (markup_error e), w).
Proof. unfold Rendered.show. by intros -> ->. Qed.

Lemma world_eta (w : world) : World (stdin w) (console w ++ []) (files w) = w.
Proof. destruct w. cbn. by rewrite app_nil_r. Qed.

(** The scan invoker shows messages, asks nothing, leaves the pending input
    and the files alone, and ends as [Rendered.scan_result] says. *)
Lemma run_nmap_rendered_spec (renders : event -> bool) (markup_error : event -> string)
    (subprocess_run : list string -> Z -> completed)
    (target : string) (options : list string) (w : world) :
  exists shown,
    messages_only shown
    /\ Rendered.run_nmap renders markup_error subprocess_run target options w
       = (Rendered.scan_result renders markup_error
            (join " " ("nmap" :: options ++ [target]))
            (subprocess_run ("nmap" :: options ++ [target]) 3600%Z),
          World (stdin w) (console w ++ shown) (files w)).
Proof.
  unfold Rendered.run_nmap, Rendered.scan_result, Rendered.handled.
  set (cmd := "nmap" :: options ++ [target]).
  unfold mbind at 1, M_bind at 1, bind at 1.
  destruct (renders (Running (join " " cmd))) eqn:Hrun.
  2:{ rewrite show_raise by done. exists []. split; [no_question|].
      by rewrite world_eta. }
  rewrite show_print by auto. unfold print at 1. cbv beta iota.
  destruct (subprocess_run cmd 3600%Z) as [returncode stdout stderr| |e].
  - unfold Rendered.try_except.
    destruct (Z.eqb_spec returncode 0) as [->|Hne]; cbn [negb].
    + rewrite decide_True by done. unfold scan_outcome. rewrite decide_True by done.
      destruct (check_scan_results (Some stdout)) as [[] message];
        unfold mbind, M_bind, bind; rewrite show_print by auto;
        run_monad; eexists [_; _]; (split; [|by rewrite <- (assoc_L (++))]).
      all: no_question.
    + rewrite decide_False by done.
      unfold mbind at 1, M_bind at 1, bind at 1. rewrite show_print by auto.
      unfold print at 1. cbv beta iota. cbn [stdin console files].
      destruct (truthy (Some stderr)); cbn [andb].
      * destruct (renders (ScanStderr stderr)) eqn:Herr; cbn [negb].
        -- unfold mbind, M_bind, bind. rewrite show_print by auto. run_monad.
           eexists [_; _; _]. split; [|by rewrite <- !(assoc_L (++))]. no_question.
        -- unfold mbind at 1, M_bind at 1, bind at 1. rewrite show_raise by done.
           cbv beta iota. unfold mbind, M_bind, bind.
           destruct (renders (ScanError (markup_error (ScanStderr stderr)))) eqn:Hagain.
           ++ rewrite show_print by auto. run_monad.
              eexists [_; _; _]. split; [|by rewrite <- !(assoc_L (++))]. no_question.
           ++ rewrite show_raise by done.
              eexists [_; _]. split; [|by rewrite <- !(assoc_L (++))]. no_question.
      * run_monad. eexists [_; _]. split; [|by rewrite <- !(assoc_L (++))]. no_question.
  - unfold mbind, M_bind, bind. rewrite show_print by auto. run_monad.
    eexists [_; _]. split; [|by rewrite <- (assoc_L (++))]. no_question.
  - unfold mbind, M_bind, bind.
    destruct (renders (ScanError e)) eqn:Herr.
    + rewrite show_print by auto. run_monad.
      eexists [_; _]. split; [|by rewrite <- (assoc_L (++))]. no_question.
    + rewrite show_raise by done.
      eexists [_]. split; [|done]. no_question.
Qed.

Lemma show_all (renders : event -> bool) (markup_error : event -> string) :
  (forall e, renders e = true) ->
  forall e, Rendered.show renders markup_error e = print e.
Proof. intros H e. unfold Rendered.show. by rewrite H, andb_false_r. Qed.

(** When every message renders, the scan invoker is [run_nmap]. *)
Lemma run_nmap_rendered (renders : event -> bool) (markup_error : event -> string)
    (subprocess_run : list string -> Z -> completed)
    (target : string) (options : list string) (w : world) :
  (forall e, renders e = true) ->
  Rendered.run_nmap renders markup_error subprocess_run target options w
  = run_nmap subprocess_run target options w.
Proof.
  intros Hall. pose proof (show_all _ markup_error Hall) as Hs.
  unfold Rendered.run_nmap, run_nmap.
  destruct (subprocess_run _ _) as [returncode stdout stderr| |e].
  - destruct (negb (returncode =? 0)%Z).
    + destruct (truthy (Some stderr)); rewrite !Hs;
        unfold Rendered.try_except; by run_monad.
    + destruct (check_scan_results (Some stdout)) as [[] message]; rewrite !Hs;
        unfold Rendered.try_except; by run_monad.
  - by rewrite !Hs.
  - by rewrite !Hs.
Qed.

(** C4 fails where the error output of the scanner does not render.  With a
    non-zero exit code and such an error output, the scan invoker does not
    return "Scan failed": the markup error raised at line 54 is caught by
    the handler of line 70, which shows its message at line 71; when that
    message does not render either, the second markup error leaves the
    function, and when it does, the reason returned is the message of the
    first. *)
Theorem run_nmap_stderr_markup (renders : event -> bool) (markup_error : event -> string)
    (subprocess_run : list string -> Z -> completed)
    (target : string) (options : list string) (w : world)
    (returncode : Z) (stdout stderr : string) :
  let cmd := "nmap" :: options ++ [target] in
  let e := markup_error (ScanStderr stderr) in
  let r := Rendered.run_nmap renders markup_error subprocess_run target options w in
  subprocess_run cmd 3600%Z = CompletedProcess returncode stdout stderr ->
  returncode <> 0%Z -> stderr <> "" ->
  renders (Running (join " " cmd)) = true ->
  renders (ScanStderr stderr) = false ->
  (renders (ScanError e) = false -> r.1 = Raise (markup_error (ScanError e)))
  /\ (renders (ScanError e) = true -> r.1 = Ok (None, Some e))
  /\ (e <> "Scan failed" -> r.1 <> Ok (None, Some "Scan failed")).
Proof.
  intros cmd e r Hlaunch Hcode Hne%truthy_Some Hrun Herr. subst r.
  destruct (run_nmap_rendered_spec renders markup_error subprocess_run target options w)
    as (shown & _ & ->).
  fold cmd. rewrite Hlaunch. unfold Rendered.scan_result, Rendered.handled.
  rewrite Hrun, decide_False, Hne, Herr by done. cbn [andb negb fst]. fold e.
  split; [by intros ->|]. split; [by intros ->|].
  intros He. destruct (renders (ScanError e)); [|done]. congruence.
Qed.

(** An exit code 1 with the error output "cannot open [/tmp/x]": the scan
    invoker raises. *)
Lemma run_nmap_stderr_markup_witness :
  let r := Rendered.run_nmap no_closing_tag closing_tag_error
             (scanner (CompletedProcess 1 "" "cannot open [/tmp/x]"))
             "10.10.10.5" full_options (typing []) in
  r.1 = Raise (closing_tag_error
                 (ScanError (closing_tag_error (ScanStderr "cannot open [/tmp/x]"))))
  /\ r.1 <> Ok (None, Some "Scan failed").
Proof.
  destruct (run_nmap_stderr_markup no_closing_tag closing_tag_error
              (scanner (CompletedProcess 1 "" "cannot open [/tmp/x]"))
              "10.10.10.5" full_options (typing []) 1%Z "" "cannot open [/tmp/x]")
    as (Hraise & _ & Hreason).
  - reflexivity.
  - lia.
  - discriminate.
  - vm_compute. reflexivity.
  - vm_compute. reflexivity.
  - split.
    + apply Hraise. vm_compute. reflexivity.
    + apply Hreason. vm_compute. discriminate.
Defined.

(** ** The analysis requester and what the controller does with its text *)

(** The requester never raises and only prints; its value does not depend
    on the world it runs in. *)
Lemma analyze_scan_shape (requests_post : string -> payload -> Z -> http)
    (scan_results target : string) (w : world) :
  exists analysis shown,
    analyze_scan requests_post scan_results target w
    = (Ok analysis, World (stdin w) (console w ++ shown) (files w))
    /\ (shown = [] \/ shown = [AnalysisComplete])
    /\ forall w', (analyze_scan requests_post scan_results target w').1 = Ok analysis.
Proof.
  unfold analyze_scan.
  destruct (requests_post _ _ _) as [status_code [text|e]|e];
    [destruct (status_code =? 200)%Z.. |]; run_monad.
  all: first
    [ by (eexists _, [AnalysisComplete]; split; [reflexivity|]; split;
          [by right | done])
    | by (eexists _, []; rewrite app_nil_r; destruct w; split; [reflexivity|];
          split; [by left | done]) ].
Qed.

(** The last block of [main]: analysis, then either the error or the
    report. *)
Lemma analyze_and_save_spec (requests_post : string -> payload -> Z -> http)
    (target scan_results : string) (w : world) :
  exists analysis shown,
    (forall w', (analyze_scan requests_post scan_results target w').1 = Ok analysis)
    /\ analyze_and_save requests_post target scan_results w
       = if startswith "Error:" analysis
         then (Ok tt,
               World (stdin w)
                 (console w ++ AnalysisStart :: shown ++ [AnalysisError analysis])
                 (files w))
         else (Ok tt,
               World (stdin w)
                 (console w ++ AnalysisStart :: shown
                    ++ [AnalysisPanel target analysis; Saved (report_name target)])
                 (<[report_name target
                    := report_content target scan_results analysis]> (files w))).
Proof.
  destruct (analyze_scan_shape requests_post scan_results target
              (World (stdin w) (console w ++ [AnalysisStart]) (files w)))
    as (analysis & shown & E & _ & Hind).
  exists analysis, shown. split; [done|].
  unfold analyze_and_save, mbind, M_bind, bind.
  change (print AnalysisStart w)
    with (Ok tt, World (stdin w) (console w ++ [AnalysisStart]) (files w)).
  cbv beta iota. rewrite E. unfold save_results, mbind, M_bind, bind.
  destruct (startswith "Error:" analysis); run_monad;
    by rewrite <- !(assoc_L (++)).
Qed.

(** C5: the requester returns the generated text on status 200, "Error: "
    and the status code on any other status, "Error: " and the message on an
    exception of the transport or of the decoding of the answer; and when
    the text starts with "Error:" the controller ends the run after showing
    it, leaving every file as it was. *)
Theorem analyze_scan_error_marker
    (requests_post : string -> payload -> Z -> http)
    (scan_results target : string) (w : world) :
  let sent := analysis_request requests_post scan_results target in
  let r := analyze_scan requests_post scan_results target w in
  (forall text, sent = Response 200 (Ok text) -> r.1 = Ok text)
  /\ (forall status_code body, sent = Response status_code body ->
        status_code <> 200%Z -> r.1 = Ok ("Error: " +:+ str_int status_code))
  /\ (forall e, sent = RequestException e -> r.1 = Ok ("Error: " +:+ e))
  /\ (forall e, sent = Response 200 (Raise e) -> r.1 = Ok ("Error: " +:+ e))
  /\ (forall analysis, r.1 = Ok analysis -> startswith "Error:" analysis = true ->
        let c := analyze_and_save requests_post target scan_results w in
        c.1 = Ok tt /\ files c.2 = files w
        /\ last (console c.2) = Some (AnalysisError analysis)).
Proof.
  intros sent r. subst sent r. unfold analyze_scan at 1 2 3 4 5.
  fold (analysis_request requests_post scan_results target).
  split; [|split; [|split; [|split]]].
  - by intros text ->.
  - intros status_code body -> Hne. by destruct (Z.eqb_spec status_code 200).
  - by intros e ->.
  - by intros e ->.
  - intros analysis Hr Herr.
    destruct (analyze_and_save_spec requests_post target scan_results w)
      as (analysis' & shown & Hind & ->).
    specialize (Hind w). unfold analyze_scan in Hind.
    fold (analysis_request requests_post scan_results target) in Hind.
    rewrite Hr in Hind. injection Hind as <-.
    rewrite Herr. cbn. split; [done|]. split; [done|].
    by rewrite app_comm_cons, (assoc_L (++)), last_snoc.
Qed.

(** The requester on a good answer, on status 500, on a refused connection
    and on an answer that is not JSON; and the controller on status 500. *)
Lemma analyze_scan_error_marker_witness :
  (analyze_scan (backend (Response 200 (Ok "## Open ports")))
     scan_two_ports "10.10.10.5" (typing [])).1
  = Ok "## Open ports"
  /\ (analyze_scan (backend (Response 500 (Raise "Expecting value")))
        scan_two_ports "10.10.10.5" (typing [])).1
     = Ok "Error: 500"
  /\ (analyze_scan (backend (RequestException "Connection refused"))
        scan_two_ports "10.10.10.5" (typing [])).1
     = Ok "Error: Connection refused"
  /\ (analyze_scan (backend (Response 200 (Raise "Expecting value")))
        scan_two_ports "10.10.10.5" (typing [])).1
     = Ok "Error: Expecting value"
  /\ files (analyze_and_save (backend (Response 500 (Raise "Expecting value")))
              "10.10.10.5" scan_two_ports (typing [])).2
     = ∅.
Proof.
  split.
  { destruct (analyze_scan_error_marker (backend (Response 200 (Ok "## Open ports")))
                scan_two_ports "10.10.10.5" (typing [])) as (H & _).
    exact (H _ eq_refl). }
  destruct (analyze_scan_error_marker (backend (Response 500 (Raise "Expecting value")))
              scan_two_ports "10.10.10.5" (typing [])) as (_ & H500 & _ & _ & Hmain).
  split.
  { apply (H500 500%Z (Raise "Expecting value") eq_refl). lia. }
  split.
  { destruct (analyze_scan_error_marker (backend (RequestException "Connection refused"))
                scan_two_ports "10.10.10.5" (typing [])) as (_ & _ & H & _).
    exact (H _ eq_refl). }
  split.
  { destruct (analyze_scan_error_marker (backend (Response 200 (Raise "Expecting value")))
                scan_two_ports "10.10.10.5" (typing [])) as (_ & _ & _ & H & _).
    exact (H _ eq_refl). }
  destruct (Hmain "Error: 500") as (_ & Hfiles & _).
  - apply (H500 500%Z (Raise "Expecting value") eq_refl). lia.
  - vm_compute. reflexivity.
  - exact Hfiles.
Defined.

(** ** The report writer *)

Lemma replace_sanitized (target : string) :
  replace "/" "_" (replace "." "_" target) = sanitized target.
Proof.
  induction target as [|c t IH]; [done|]. cbn [replace sanitized].
  destruct (Ascii.eqb_spec c ".") as [->|Hdot].
  - rewrite app_cons, app_empty_l. cbn [replace]. rewrite IH.
    by rewrite bool_decide_eq_true_2 by auto.
  - cbn [replace]. rewrite IH. destruct (Ascii.eqb_spec c "/") as [->|Hslash].
    + by rewrite bool_decide_eq_true_2 by auto.
    + by rewrite bool_decide_eq_false_2 by (intros [|]; done).
Qed.

Lemma report_name_sanitized (target : string) :
  report_name target = "analysis_" +:+ sanitized target +:+ ".md".
Proof. unfold report_name. by rewrite replace_sanitized. Qed.

Lemma report_content_lines (target scan_results analysis : string) :
  report_content target scan_results analysis
  = join LF (report_lines target scan_results analysis).
Proof.
  unfold report_content, join, report_lines, LF. cbn [String.concat].
  norm_app. reflexivity.
Qed.

(** C8: the report writer stores, under the name "analysis_" + sanitized
    target + ".md", the heading with the target, a rule, the analysis, a
    rule, the heading "Raw Nmap Scan" and the scan text in a fenced block,
    and returns that name; for "10.10.10.5" it is "analysis_10_10_10_5.md". *)
Theorem save_results_report (target scan_results analysis : string) (w : world) :
  let filename := "analysis_" +:+ sanitized target +:+ ".md" in
  let r := save_results target scan_results analysis w in
  r.1 = Ok filename
  /\ files r.2 = <[filename := join LF (report_lines target scan_results analysis)]> (files w)
  /\ files r.2 !! filename = Some (join LF (report_lines target scan_results analysis))
  /\ stdin r.2 = stdin w /\ console r.2 = console w
  /\ report_name "10.10.10.5" = "analysis_10_10_10_5.md".
Proof.
  intros filename r. subst filename r. unfold save_results. run_monad.
  fold (report_name target). fold (report_content target scan_results analysis).
  rewrite report_name_sanitized, report_content_lines.
  repeat split; try done. by rewrite lookup_insert_eq.
Qed.

(** C9: the report writer is a function of its three arguments.  In any two
    worlds it returns the same name and stores the same content under it,
    and a second call right after the first changes nothing. *)
Theorem save_results_idempotent (target scan_results analysis : string)
    (w1 w2 : world) :
  let once := save_results target scan_results analysis w1 in
  let other := save_results target scan_results analysis w2 in
  let twice := save_results target scan_results analysis once.2 in
  once.1 = other.1
  /\ files once.2 !! report_name target = files other.2 !! report_name target
  /\ twice = once.
Proof.
  unfold save_results. run_monad. fold (report_name target).
  repeat split.
  - by rewrite !lookup_insert_eq.
  - by rewrite insert_insert_eq.
Qed.

(** ** Mode selection *)

Lemma elem_of_fromkeys_from (x : string) (seen l : list string) :
  x ∈ fromkeys_from seen l <-> x ∈ l /\ x ∉ seen.
Proof.
  revert seen. induction l as [|y l IH]; intros seen; cbn.
  - rewrite elem_of_nil. tauto.
  - case_bool_decide as Hy.
    + rewrite IH, elem_of_cons. split; [tauto|].
      intros [[->|H] Hx]; [done | tauto].
    + rewrite !elem_of_cons, IH, elem_of_cons. split.
      * intros [->|[H1 H2]]; [tauto|]. split; [tauto|]. tauto.
      * intros [[->|H1] H2]; [tauto|].
        destruct (decide (x = y)); [tauto|]. right. tauto.
Qed.

Lemma elem_of_fromkeys (x : string) (l : list string) : x ∈ fromkeys l <-> x ∈ l.
Proof.
  unfold fromkeys. rewrite elem_of_fromkeys_from, elem_of_nil. tauto.
Qed.

Lemma NoDup_fromkeys_from (seen l : list string) : NoDup (fromkeys_from seen l).
Proof.
  revert seen. induction l as [|y l IH]; intros seen; cbn; [constructor|].
  case_bool_decide; [done|]. constructor; [|done].
  rewrite elem_of_fromkeys_from, elem_of_cons. tauto.
Qed.

Lemma NoDup_fromkeys (l : list string) : NoDup (fromkeys l).
Proof. apply NoDup_fromkeys_from. Qed.

(** Removing duplicates leaves a list without duplicates as it is. *)
Lemma fromkeys_from_NoDup (seen l : list string) :
  NoDup l -> (forall x, x ∈ l -> x ∉ seen) -> fromkeys_from seen l = l.
Proof.
  revert seen. induction l as [|y l IH]; intros seen Hnd Hseen; [done|]. cbn.
  apply NoDup_cons in Hnd as [Hy Hnd].
  rewrite bool_decide_eq_false_2 by (apply Hseen; left).
  f_equal. apply IH; [done|]. intros x Hx. rewrite elem_of_cons.
  intros [->|Hs]; [done|]. by apply (Hseen x); [right|].
Qed.

Lemma fromkeys_NoDup (l : list string) : NoDup l -> fromkeys l = l.
Proof. intros H. apply fromkeys_from_NoDup; [done|]. intros x _. apply not_elem_of_nil. Qed.

(** The choice read at the prompt: the trimmed line, "2" when it is empty. *)
Lemma read_choice_line (w : world) (line : string) (rest : list string) :
  stdin w = line :: rest ->
  read_choice w
  = (Ok (if decide (strip line = "") then "2" else strip line),
     World rest (console w ++ [Asked AskChoice]) (files w)).
Proof.
  intros Hin. unfold read_choice, mbind, M_bind, bind, input. rewrite Hin.
  unfold ret. by destruct (strip line).
Qed.

(** Every choice other than "1", "3", "4" and "5" builds the full scan. *)
Lemma build_options_full (shlex_split : string -> result (list string))
    (choice : string) (w : world) :
  choice ∉ ["1"; "3"; "4"; "5"] ->
  build_options shlex_split choice w
  = (Ok full_options,
     World (stdin w)
       (console w ++ [if decide (choice = "2") then WarnAllPorts
                      else WarnInvalidChoice])
       (files w)).
Proof.
  intros Hc. unfold build_options.
  destruct (String.eqb_spec choice "1") as [->|_]; [by destruct Hc; compute_done|].
  destruct (String.eqb_spec choice "2") as [->|H2]; [done|].
  destruct (String.eqb_spec choice "3") as [->|_]; [by destruct Hc; compute_done|].
  destruct (String.eqb_spec choice "4") as [->|_]; [by destruct Hc; compute_done|].
  destruct (String.eqb_spec choice "5") as [->|_]; [by destruct Hc; compute_done|].
  run_monad. by rewrite decide_False.
Qed.

(** C6: with the choice "2", with an empty line at the prompt and with any
    line that is not one of the five modes, option building ends with the
    full scan: "-Pn", "-sV", "-sC", "-p-" and "-T4", each once, after a
    warning on the console. *)
Theorem select_options_full (shlex_split : string -> result (list string))
    (w : world) (line : string) (rest : list string) :
  stdin w = line :: rest ->
  strip line ∉ ["1"; "3"; "4"; "5"] ->
  exists warning,
    select_options shlex_split w
    = (Ok ["-Pn"; "-sV"; "-sC"; "-p-"; "-T4"],
       World rest (console w ++ [Asked AskChoice; warning]) (files w))
    /\ NoDup ["-Pn"; "-sV"; "-sC"; "-p-"; "-T4"]
    /\ warning = (if decide (strip line = "" \/ strip line = "2")
                  then WarnAllPorts else WarnInvalidChoice).
Proof.
  intros Hin Hline. eexists. split; [|split; [|reflexivity]].
  - unfold select_options, mbind, M_bind, bind.
    rewrite (read_choice_line _ _ _ Hin).
    rewrite build_options_full by (case_decide; [compute_done | done]).
    unfold ret. cbn. rewrite <- (assoc_L (++)). cbn.
    do 4 f_equal. destruct (decide (strip line = "")) as [->|Hne]; [done|].
    destruct (decide (strip line = "2")) as [->|Hne2]; [done|].
    rewrite decide_False; [done | by intros [|]].
  - compute_done.
Qed.

(** The full scan on the choice "2", on an empty line and on the choice "9". *)
Lemma select_options_full_witness :
  (exists warning,
     select_options split_words (typing [" 2 "])
     = (Ok ["-Pn"; "-sV"; "-sC"; "-p-"; "-T4"],
        World [] [Asked AskChoice; warning] ∅)
     /\ warning = WarnAllPorts)
  /\ (exists warning,
        select_options split_words (typing [""])
        = (Ok ["-Pn"; "-sV"; "-sC"; "-p-"; "-T4"],
           World [] [Asked AskChoice; warning] ∅)
        /\ warning = WarnAllPorts)
  /\ (exists warning,
        select_options split_words (typing ["9"])
        = (Ok ["-Pn"; "-sV"; "-sC"; "-p-"; "-T4"],
           World [] [Asked AskChoice; warning] ∅)
        /\ warning = WarnInvalidChoice).
Proof.
  split; [|split].
  - destruct (select_options_full split_words (typing [" 2 "]) " 2 " [] eq_refl)
      as (warning & Hrun & _ & Hw); [compute_done|].
    exists warning. split; [exact Hrun | exact Hw].
  - destruct (select_options_full split_words (typing [""]) "" [] eq_refl)
      as (warning & Hrun & _ & Hw); [compute_done|].
    exists warning. split; [exact Hrun | exact Hw].
  - destruct (select_options_full split_words (typing ["9"]) "9" [] eq_refl)
      as (warning & Hrun & _ & Hw); [compute_done|].
    exists warning. split; [exact Hrun | exact Hw].
Defined.

(** Every branch of option building puts "-Pn" in the list; it ends without
    one only when the input runs out or the tokenizer raises. *)
Lemma build_options_Pn (shlex_split : string -> result (list string))
    (choice : string) (w : world) :
  match build_options shlex_split choice w with
  | (Ok options, _) => "-Pn" ∈ options
  | (Raise e, w') => stdin w' = [] \/ exists flags, shlex_split flags = Raise e
  end.
Proof.
  unfold build_options.
  destruct (String.eqb choice "1"); [compute_done|].
  destruct (String.eqb choice "2"); [compute_done|].
  destruct (String.eqb choice "3"); [compute_done|].
  destruct (String.eqb choice "4").
  { unfold mbind, M_bind, bind, input. destruct (stdin w); [by left|]. cbn. left. }
  destruct (String.eqb choice "5"); [|compute_done].
  unfold mbind, M_bind, bind, input, print. cbn [stdin console files].
  destruct (stdin w) as [|flags rest]; [by left|].
  destruct (truthy (Some (strip flags))); [|compute_done].
  destruct (shlex_split (strip flags)) as [options|e] eqn:E.
  - case_bool_decide; cbn; [done | left].
  - right. by exists (strip flags).
Qed.

(** C7: whenever option building yields a list, "-Pn" is in it.  Custom
    flags without "-Pn" get it in front; an empty custom input gives "-Pn",
    "-sV" and "-sC"; and no list is yielded only when the console input
    ends or the tokenizer rejects the flags. *)
Theorem select_options_skip_discovery
    (shlex_split : string -> result (list string)) (w : world) :
  (forall options w', select_options shlex_split w = (Ok options, w') ->
     "-Pn" ∈ options)
  /\ (forall line flags rest tokens,
        stdin w = line :: flags :: rest -> strip line = "5" ->
        strip flags <> "" -> shlex_split (strip flags) = Ok tokens ->
        "-Pn" ∉ tokens ->
        (select_options shlex_split w).1 = Ok (fromkeys ("-Pn" :: tokens))
        /\ head (fromkeys ("-Pn" :: tokens)) = Some "-Pn")
  /\ (forall line flags rest,
        stdin w = line :: flags :: rest -> strip line = "5" ->
        strip flags = "" ->
        (select_options shlex_split w).1 = Ok ["-Pn"; "-sV"; "-sC"])
  /\ (forall e w', select_options shlex_split w = (Raise e, w') ->
        stdin w' = [] \/ exists flags, shlex_split flags = Raise e).
Proof.
  split; [|split; [|split]].
  - intros options w'. unfold select_options, mbind, M_bind, bind.
    destruct (read_choice w) as [[choice|e] w1]; [|done].
    pose proof (build_options_Pn shlex_split choice w1) as H.
    destruct (build_options shlex_split choice w1) as [[built|e] w2]; [|done].
    intros [= <- <-]. by apply elem_of_fromkeys.
  - intros line flags rest tokens Hin Hline Hflags Hsplit Hno.
    unfold select_options, mbind, M_bind, bind.
    rewrite (read_choice_line _ _ _ Hin), Hline. cbn [decide].
    rewrite decide_False by done.
    unfold build_options, mbind, M_bind, bind, input, print.
    cbn [String.eqb Ascii.eqb Bool.eqb andb stdin console files].
    apply truthy_Some in Hflags. rewrite Hflags, Hsplit.
    by rewrite bool_decide_eq_false_2.
  - intros line flags rest Hin Hline Hflags.
    unfold select_options, mbind, M_bind, bind.
    rewrite (read_choice_line _ _ _ Hin), Hline.
    rewrite decide_False by done.
    unfold build_options, mbind, M_bind, bind, input, print.
    cbn [String.eqb Ascii.eqb Bool.eqb andb stdin console files].
    by rewrite Hflags.
  - intros e w'. unfold select_options, mbind, M_bind, bind.
    unfold read_choice at 1. unfold mbind, M_bind, bind, input.
    destruct (stdin w) as [|line rest] eqn:Hin.
    { intros [= <- <-]. by left. }
    cbn [ret]. set (choice := if truthy _ then _ else _).
    set (w1 := World _ _ _).
    pose proof (build_options_Pn shlex_split choice w1) as H.
    destruct (build_options shlex_split choice w1) as [[built|e'] w2]; [done|].
    by intros [= <- <-].
Qed.

(** Custom flags without "-Pn", custom flags with it in second place, and
    an empty custom line. *)
Lemma select_options_skip_discovery_witness :
  (select_options split_words (typing ["5"; "-sV -p 80"])).1
  = Ok ["-Pn"; "-sV"; "-p"; "80"]
  /\ "-Pn" ∈ ["-sV"; "-Pn"]
  /\ (select_options split_words (typing ["5"; "  "])).1
     = Ok ["-Pn"; "-sV"; "-sC"].
Proof.
  split; [|split].
  - destruct (select_options_skip_discovery split_words (typing ["5"; "-sV -p 80"]))
      as (_ & H & _).
    destruct (H "5" "-sV -p 80" [] ["-sV"; "-p"; "80"] eq_refl) as [Hrun _].
    + vm_compute. reflexivity.
    + vm_compute. discriminate.
    + vm_compute. reflexivity.
    + compute_done.
    + exact Hrun.
  - destruct (select_options_skip_discovery split_words (typing ["5"; "-sV -Pn"]))
      as (H & _).
    apply (H ["-sV"; "-Pn"] (World [] [Asked AskChoice; CustomHelp; Asked AskFlags] ∅)).
    vm_compute. reflexivity.
  - destruct (select_options_skip_discovery split_words (typing ["5"; "  "]))
      as (_ & _ & H & _).
    apply (H "5" "  " [] eq_refl); vm_compute; reflexivity.
Defined.

(** ** The controller between scan and analysis *)

Lemma run_nmap_spec (subprocess_run : list string -> Z -> completed)
    (target : string) (options : list string) (w : world) :
  exists shown,
    messages_only shown
    /\ run_nmap subprocess_run target options w
       = (Ok (scan_outcome (subprocess_run ("nmap" :: options ++ [target]) 3600%Z)),
          World (stdin w) (console w ++ shown) (files w)).
Proof.
  unfold run_nmap, scan_outcome.
  destruct (subprocess_run _ _) as [returncode stdout stderr| |e].
  - destruct (Z.eqb_spec returncode 0) as [->|Hne]; cbn [negb].
    + rewrite decide_True by done.
      destruct (check_scan_results (Some stdout)) as [[] message];
        run_monad; eexists [_; _]; (split; [|by rewrite <- (assoc_L (++))]).
      all: no_question.
    + rewrite decide_False by done.
      destruct (truthy (Some stderr)); run_monad;
        [eexists [_; _; _] | eexists [_; _]];
        (split; [|by rewrite <- !(assoc_L (++))]).
      all: no_question.
  - run_monad. eexists [_; _]. split; [|by rewrite <- (assoc_L (++))].
    no_question.
  - run_monad. eexists [_; _]. split; [|by rewrite <- (assoc_L (++))].
    no_question.
Qed.

(** The gate after a scan that did not go through: the question is asked
    exactly when there is text and the error does not mention "No open
    ports". *)
Lemma scan_gate_failed (scan_results error : option string) (w : world) :
  truthy scan_results = false \/ truthy error = true ->
  exists shown,
    messages_only shown
    /\ scan_gate scan_results error w
       = if truthy scan_results && negb (str_in "No open ports" (str_opt error))
         then
           match stdin w with
           | line :: rest =>
               (Ok (if decide (lower (strip line) = "y") then scan_results else None),
                World rest (console w ++ shown ++ [Asked AskProceed]) (files w))
           | [] =>
               (Raise "EOF when reading a line",
                World [] (console w ++ shown ++ [Asked AskProceed]) (files w))
           end
         else (Ok None, World (stdin w) (console w ++ shown) (files w)).
Proof.
  intros Hfail. unfold scan_gate.
  assert (negb (truthy scan_results) || truthy error = true) as ->.
  { destruct Hfail as [-> | ->]; [done | by rewrite orb_true_r]. }
  destruct (truthy scan_results) eqn:Ht; cbn [andb].
  - exists [ScanFailedBanner; ScanOutput (String.substring 0 500 (str_opt scan_results));
            Troubleshooting].
    split.
    { no_question. }
    destruct (str_in "No open ports" (str_opt error)); cbn [negb].
    + unfold mbind, M_bind, bind, print, ret. cbn [stdin console files].
      by rewrite <- !(assoc_L (++)).
    + unfold mbind, M_bind, bind, print, ret, input. cbn [stdin console files].
      destruct (stdin w) as [|line rest]; rewrite <- !(assoc_L (++)); [done|].
      destruct (String.eqb_spec (lower (strip line)) "y") as [->|Hne]; cbn [negb].
      * by rewrite decide_True.
      * by rewrite decide_False.
  - exists [ScanFailedBanner; Troubleshooting]. split.
    { no_question. }
    unfold mbind, M_bind, bind, print, ret. cbn [stdin console files].
    by rewrite <- !(assoc_L (++)).
Qed.

Lemma Mentions_here (needle post : string) : Mentions needle (needle +:+ post).
Proof. by exists "", post. Qed.

Lemma Mentions_app_r (needle pre s : string) :
  Mentions needle s -> Mentions needle (pre +:+ s).
Proof.
  intros (a & b & ->). exists (pre +:+ a), b. by rewrite app_assoc.
Qed.

(** A failed classification carries one of four reasons, none empty. *)
Lemma check_scan_results_failed (scan_output : option string) (reason : string) :
  check_scan_results scan_output = (false, reason) ->
  reason ∈ ["Scan produced no output"; "Host appears down (try -Pn flag)";
            "No open ports found (all ports closed/filtered)";
            "No ports detected in scan output"].
Proof.
  unfold check_scan_results. destruct scan_output as [out|].
  - destruct (negb _ || _); [intros [= <-]; compute_done|].
    destruct (str_in "Host seems down" out || _); [intros [= <-]; compute_done|].
    destruct (findall open_port_re out); [|done].
    destruct (str_in "filtered" _ || _); intros [= <-]; compute_done.
  - intros [= <-]. compute_done.
Qed.

Lemma check_scan_results_reason_truthy (scan_output : option string) (reason : string) :
  check_scan_results scan_output = (false, reason) -> truthy (Some reason) = true.
Proof.
  intros H%check_scan_results_failed.
  repeat (apply elem_of_cons in H as [->|H]; [done|]). by apply elem_of_nil in H.
Qed.

(** Mode selection leaves the files alone. *)
Lemma select_options_files (shlex_split : string -> result (list string)) (w : world) :
  files (select_options shlex_split w).2 = files w.
Proof.
  unfold select_options, read_choice, mbind, M_bind, bind, input.
  destruct (stdin w) as [|line rest]; [done|]. cbn [ret].
  set (choice := if truthy _ then _ else _). unfold build_options.
  destruct (String.eqb choice "1"); [done|].
  destruct (String.eqb choice "2"); [done|].
  destruct (String.eqb choice "3"); [done|].
  destruct (String.eqb choice "4").
  { unfold mbind, M_bind, bind, input. cbn [stdin]. by destruct rest. }
  destruct (String.eqb choice "5"); [|done].
  unfold mbind, M_bind, bind, input, print. cbn [stdin console files].
  destruct rest as [|flags rest]; [done|].
  destruct (truthy (Some (strip flags))); [|done].
  destruct (shlex_split (strip flags)); [|done]. by case_bool_decide.
Qed.

(** [main] with the target on the command line, from the menu on. *)
Lemma main_with_target (subprocess_run : list string -> Z -> completed)
    (requests_post : string -> payload -> Z -> http)
    (shlex_split : string -> result (list string))
    (argv : list string) (w : world) (prog target : string) (more : list string) :
  argv = prog :: target :: more -> target <> "" ->
  main subprocess_run requests_post shlex_split argv w
  = (options ← select_options shlex_split;
     go ← scan_step subprocess_run target options;
     match go with
     | Some text => analyze_and_save requests_post target text
     | None => ret tt
     end) (World (stdin w) (console w ++ [Banner; Menu]) (files w)).
Proof.
  intros -> Ht%truthy_Some.
  unfold main, print_banner, scan_step, mbind, M_bind, bind.
  unfold print at 1, ret at 1. rewrite Ht. cbn [negb]. unfold print at 1.
  cbn [stdin console files]. rewrite <- (assoc_L (++)). cbn [app].
  destruct (select_options _ _) as [[options|e] w1]; [|done].
  by destruct (run_nmap _ _ _ _) as [[[scan_results error]|e] w2].
Qed.

(** The gate is [scan_gate] when there is no text or the head of the text
    renders. *)
Lemma scan_gate_rendered (renders : event -> bool) (markup_error : event -> string)
    (scan_results error : option string) (w : world) :
  truthy scan_results = false
  \/ renders (ScanOutput (String.substring 0 500 (str_opt scan_results))) = true ->
  Rendered.scan_gate renders markup_error scan_results error w
  = scan_gate scan_results error w.
Proof.
  intros Hhead. unfold Rendered.scan_gate, scan_gate.
  rewrite (show_print _ _ ScanFailedBanner), (show_print _ _ Troubleshooting) by auto.
  destruct (truthy scan_results) eqn:Ht; [|done].
  destruct Hhead as [|Hhead]; [done|]. by rewrite show_print by auto.
Qed.

(** The gate raises after the banner when the head of the text does not
    render. *)
Lemma scan_gate_unrendered (renders : event -> bool) (markup_error : event -> string)
    (text : string) (error : option string) (w : world) :
  text <> "" -> truthy error = true ->
  renders (ScanOutput (String.substring 0 500 text)) = false ->
  Rendered.scan_gate renders markup_error (Some text) error w
  = (Raise (markup_error (ScanOutput (String.substring 0 500 text))),
     World (stdin w) (console w ++ [ScanFailedBanner]) (files w)).
Proof.
  intros Ht%truthy_Some Herr Hhead. unfold Rendered.scan_gate.
  rewrite Ht, Herr. cbn [negb orb str_opt].
  unfold mbind at 1, M_bind at 1, bind at 1. rewrite show_print by auto.
  unfold print at 1. cbv beta iota.
  unfold mbind at 1, M_bind at 1, bind at 1.
  unfold mbind at 1, M_bind at 1, bind at 1.
  by rewrite show_raise.
Qed.

(** When every message renders, the scan and the gate are [scan_step]. *)
Lemma scan_step_rendered (renders : event -> bool) (markup_error : event -> string)
    (subprocess_run : list string -> Z -> completed)
    (target : string) (options : list string) (w : world) :
  (forall e, renders e = true) ->
  Rendered.scan_step renders markup_error subprocess_run target options w
  = scan_step subprocess_run target options w.
Proof.
  intros Hall. unfold Rendered.scan_step, scan_step, mbind, M_bind, bind.
  rewrite run_nmap_rendered by done.
  destruct (run_nmap _ _ _ _) as [[[scan_results error]|e] w1]; [|done].
  apply scan_gate_rendered. by right.
Qed.

(** After a scan that left no text, the scan invoker has returned without a
    text or raised the error of a message that does not render. *)
Lemma scan_result_failed (renders : event -> bool) (markup_error : event -> string)
    (cmdline : string) (launched : completed) :
  launched = TimeoutExpired
  \/ (exists returncode stdout stderr,
        launched = CompletedProcess returncode stdout stderr /\ returncode <> 0%Z)
  \/ (exists e, launched = RunException e) ->
  (exists error, Rendered.scan_result renders markup_error cmdline launched
                 = Ok (None, error))
  \/ (exists e, renders e = false
                /\ Rendered.scan_result renders markup_error cmdline launched
                   = Raise (markup_error e)).
Proof.
  intros Hfail. unfold Rendered.scan_result, Rendered.handled.
  destruct (renders (Running cmdline)) eqn:Hrun; [|by right; eexists].
  destruct Hfail as [->|[(rc & so & se & -> & Hrc)|[e ->]]].
  - left. by eexists.
  - rewrite decide_False by done.
    destruct (truthy (Some se) && negb (renders (ScanStderr se))); [|left; by eexists].
    destruct (renders (ScanError _)) eqn:Herr; [left | right]; by eexists.
  - destruct (renders (ScanError e)) eqn:Herr; [left | right]; by eexists.
Qed.

(** C1, amended to what the program does by design.  After a scan with exit
    code zero, a text and a failed classification: when the reason does not
    mention "No open ports" and the command line and the head of the text
    render, the question whether to proceed is asked, and the answer "y"
    lets the text through.  When the reason mentions "No open ports", and
    after a timeout, a non-zero exit code or an exception of the launch,
    nothing is asked and no text goes on to the analysis: the step ends
    without a text, or with the error of a message that does not render. *)
Theorem proceed_prompt_rule (renders : event -> bool) (markup_error : event -> string)
    (subprocess_run : list string -> Z -> completed)
    (target : string) (options : list string) (w : world) :
  let cmd := "nmap" :: options ++ [target] in
  let launched := subprocess_run cmd 3600%Z in
  let r := Rendered.scan_step renders markup_error subprocess_run target options w in
  let nothing_asked :=
    (r.1 = Ok None \/ exists e, renders e = false /\ r.1 = Raise (markup_error e))
    /\ stdin r.2 = stdin w
    /\ exists shown, messages_only shown /\ console r.2 = console w ++ shown in
  (forall stdout stderr reason,
     launched = CompletedProcess 0 stdout stderr -> stdout <> "" ->
     check_scan_results (Some stdout) = (false, reason) ->
     (~ Mentions "No open ports" reason ->
        renders (Running (join " " cmd)) = true ->
        renders (ScanOutput (String.substring 0 500 stdout)) = true ->
        (exists shown, messages_only shown
           /\ console r.2 = console w ++ shown ++ [Asked AskProceed])
        /\ forall line rest, stdin w = line :: rest ->
             r.1 = Ok (if decide (lower (strip line) = "y")
                       then Some stdout else None))
     /\ (Mentions "No open ports" reason -> nothing_asked))
  /\ (launched = TimeoutExpired
      \/ (exists returncode stdout stderr,
            launched = CompletedProcess returncode stdout stderr
            /\ returncode <> 0%Z)
      \/ (exists e, launched = RunException e) ->
      nothing_asked).
Proof.
  intros cmd launched r nothing_asked. subst nothing_asked r.
  unfold Rendered.scan_step, mbind, M_bind, bind.
  destruct (run_nmap_rendered_spec renders markup_error subprocess_run target options w)
    as (shown1 & Hm1 & ->).
  fold cmd launched. split.
  - intros stdout stderr reason -> Hne Hcheck.
    pose proof Hne as Htext%truthy_Some.
    pose proof (check_scan_results_reason_truthy _ _ Hcheck) as Hreason.
    unfold Rendered.scan_result, scan_outcome. rewrite !decide_True by done.
    rewrite Hcheck. cbn [fst snd]. split.
    + intros Hno -> Hhead.
      rewrite scan_gate_rendered by (right; exact Hhead).
      destruct (scan_gate_failed (Some stdout) (Some reason)
                  (World (stdin w) (console w ++ shown1) (files w)))
        as (shown2 & Hm2 & ->); [by right|].
      rewrite Htext. cbn [andb str_opt stdin console files].
      assert (str_in "No open ports" reason = false) as ->
        by (by apply str_in_false).
      cbn [negb]. split.
      * exists (shown1 ++ shown2). split.
        { intros p [H|H]%elem_of_app; [by apply (Hm1 p) | by apply (Hm2 p)]. }
        destruct (stdin w); cbn; by rewrite <- !(assoc_L (++)).
      * by intros line rest ->.
    + intros Hyes.
      destruct (renders (Running (join " " cmd))) eqn:Hrun.
      2:{ cbn. split; [right; by eexists|]. split; [done|]. by exists shown1. }
      destruct (renders (ScanOutput (String.substring 0 500 stdout))) eqn:Hhead.
      * rewrite scan_gate_rendered by (right; exact Hhead).
        destruct (scan_gate_failed (Some stdout) (Some reason)
                    (World (stdin w) (console w ++ shown1) (files w)))
          as (shown2 & Hm2 & ->); [by right|].
        rewrite Htext. cbn [andb str_opt stdin console files].
        assert (str_in "No open ports" reason = true) as ->
          by (by apply str_in_spec).
        cbn. split; [by left|]. split; [done|]. exists (shown1 ++ shown2). split.
        { intros p [H|H]%elem_of_app; [by apply (Hm1 p) | by apply (Hm2 p)]. }
        by rewrite <- !(assoc_L (++)).
      * rewrite scan_gate_unrendered by done. cbn.
        split; [right; by eexists|]. split; [done|].
        exists (shown1 ++ [ScanFailedBanner]). split.
        { intros p [H|H]%elem_of_app; [by apply (Hm1 p)|].
          revert p H. no_question. }
        by rewrite <- !(assoc_L (++)).
  - intros Hfail.
    destruct (scan_result_failed renders markup_error (join " " cmd) launched Hfail)
      as [[error ->]|(e & He & ->)].
    + rewrite scan_gate_rendered by (by left).
      destruct (scan_gate_failed None error
                  (World (stdin w) (console w ++ shown1) (files w)))
        as (shown2 & Hm2 & ->); [by left|].
      cbn. split; [by left|]. split; [done|]. exists (shown1 ++ shown2). split.
      { intros p [H|H]%elem_of_app; [by apply (Hm1 p) | by apply (Hm2 p)]. }
      by rewrite <- !(assoc_L (++)).
    + cbn. split; [right; by eexists|]. split; [done|]. by exists shown1.
Qed.

(** A host-down notice that renders: the question is asked and "y" lets the
    text through; a timeout: nothing is asked. *)
Lemma proceed_prompt_rule_witness :
  (Rendered.scan_step no_closing_tag closing_tag_error
     (scanner (CompletedProcess 0 scan_host_down "")) "10.10.10.5"
     full_options (typing ["Y "])).1
  = Ok (Some scan_host_down)
  /\ stdin (Rendered.scan_step no_closing_tag closing_tag_error
              (scanner TimeoutExpired) "10.10.10.5" full_options (typing ["y"])).2
     = ["y"].
Proof.
  split.
  - destruct (proceed_prompt_rule no_closing_tag closing_tag_error
                (scanner (CompletedProcess 0 scan_host_down ""))
                "10.10.10.5" full_options (typing ["Y "])) as [H _].
    destruct (H scan_host_down "" "Host appears down (try -Pn flag)" eq_refl)
      as [Hask _].
    + vm_compute. discriminate.
    + vm_compute. reflexivity.
    + destruct Hask as [_ Hanswer].
      * apply not_Mentions. vm_compute. reflexivity.
      * vm_compute. reflexivity.
      * vm_compute. reflexivity.
      * exact (Hanswer "Y " [] eq_refl).
  - destruct (proceed_prompt_rule no_closing_tag closing_tag_error
                (scanner TimeoutExpired) "10.10.10.5"
                full_options (typing ["y"])) as [_ H].
    destruct H as (_ & Hin & _); [by left|]. exact Hin.
Defined.

(** C1 as stated fails on closed ports: the scanner exits with code zero,
    the text is not empty, the classification fails with a reason that says
    "No open ports", and nothing is asked: the line "y" stays unread and the
    step ends without a text to analyse. *)
Lemma proceed_prompt_counterexample :
  let reason := "No open ports found (all ports closed/filtered)" in
  let r := scan_step (scanner (CompletedProcess 0 scan_all_closed ""))
             "10.10.10.5" full_options (typing ["y"]) in
  scan_all_closed <> ""
  /\ check_scan_results (Some scan_all_closed) = (false, reason)
  /\ Mentions "No open ports" reason
  /\ (Asked AskProceed ∉ console r.2)
  /\ stdin r.2 = ["y"]
  /\ r.1 = Ok None.
Proof.
  cbv zeta. split; [discriminate|]. split; [vm_compute; reflexivity|].
  split; [apply str_in_spec; vm_compute; reflexivity|].
  assert (scan_step (scanner (CompletedProcess 0 scan_all_closed ""))
            "10.10.10.5" full_options (typing ["y"])
          = (Ok None,
             World ["y"]
               [Running "nmap -Pn -sV -sC -p- -T4 10.10.10.5";
                ScanIncomplete "No open ports found (all ports closed/filtered)";
                ScanFailedBanner; ScanOutput scan_all_closed; Troubleshooting]
               ∅)) as -> by (vm_compute; reflexivity).
  split; [compute_done|]. split; reflexivity.
Qed.

(** C10: a report can follow a scan classified as failed.  With the target
    on the command line, a scanner that exits with code zero and a text the
    validator rejects for a reason that does not mention "No open ports",
    the answer "y" to the question and an analysis that does not start with
    "Error:", [main] ends normally and has written the report of the target
    with the rejected text in it. *)
Theorem failed_scan_report (subprocess_run : list string -> Z -> completed)
    (requests_post : string -> payload -> Z -> http)
    (shlex_split : string -> result (list string))
    (argv : list string) (w w1 : world) (prog target : string)
    (more options : list string) (stdout stderr reason line analysis : string)
    (rest : list string) :
  argv = prog :: target :: more -> target <> "" ->
  select_options shlex_split (World (stdin w) (console w ++ [Banner; Menu]) (files w))
    = (Ok options, w1) ->
  subprocess_run ("nmap" :: options ++ [target]) 3600%Z
    = CompletedProcess 0 stdout stderr ->
  stdout <> "" ->
  check_scan_results (Some stdout) = (false, reason) ->
  ~ Mentions "No open ports" reason ->
  stdin w1 = line :: rest -> lower (strip line) = "y" ->
  analysis_request requests_post stdout target = Response 200 (Ok analysis) ->
  startswith "Error:" analysis = false ->
  let r := main subprocess_run requests_post shlex_split argv w in
  r.1 = Ok tt
  /\ files r.2
     = <[report_name target := report_content target stdout analysis]> (files w)
  /\ Mentions stdout (report_content target stdout analysis)
  /\ last (console r.2) = Some (Saved (report_name target)).
Proof.
  intros Hargv Htarget Hsel Hrun Hout Hcheck Hno Hin Hy Hpost Hmark r. subst r.
  enough (exists shown,
            main subprocess_run requests_post shlex_split argv w
            = (Ok tt,
               World rest
                 (console w1 ++ shown
                    ++ [AnalysisPanel target analysis; Saved (report_name target)])
                 (<[report_name target := report_content target stdout analysis]>
                    (files w)))) as [shown ->].
  { cbn [fst snd files console]. repeat split.
    - unfold report_content. do 3 apply Mentions_app_r. apply Mentions_here.
    - change [AnalysisPanel target analysis; Saved (report_name target)]
        with ([AnalysisPanel target analysis] ++ [Saved (report_name target)]).
      by rewrite !(assoc_L (++)), last_snoc. }
  rewrite (main_with_target _ _ _ _ _ _ _ _ Hargv Htarget).
  unfold mbind at 1, M_bind at 1, bind at 1. rewrite Hsel.
  pose proof (select_options_files shlex_split
                (World (stdin w) (console w ++ [Banner; Menu]) (files w))) as Hf.
  rewrite Hsel in Hf. cbn [snd files] in Hf.
  unfold mbind at 1, M_bind at 1, bind at 1.
  unfold scan_step, mbind, M_bind, bind.
  destruct (run_nmap_spec subprocess_run target options w1) as (shown1 & _ & ->).
  rewrite Hrun. unfold scan_outcome. rewrite decide_True by done.
  rewrite Hcheck. cbn [fst snd].
  destruct (scan_gate_failed (Some stdout) (Some reason)
              (World (stdin w1) (console w1 ++ shown1) (files w1)))
    as (shown2 & _ & ->);
    [right; by apply check_scan_results_reason_truthy in Hcheck|].
  apply truthy_Some in Hout. rewrite Hout. cbn [andb str_opt stdin console files].
  assert (str_in "No open ports" reason = false) as -> by (by apply str_in_false).
  cbn [negb]. rewrite Hin, decide_True by done.
  destruct (analyze_and_save_spec requests_post target stdout
              (World rest ((console w1 ++ shown1) ++ shown2 ++ [Asked AskProceed])
                 (files w1)))
    as (analysis' & shown3 & Hind & ->).
  specialize (Hind w). unfold analyze_scan in Hind.
  fold (analysis_request requests_post stdout target) in Hind.
  rewrite Hpost in Hind. injection Hind as <-. rewrite Hmark, Hf.
  exists (shown1 ++ shown2 ++ Asked AskProceed :: AnalysisStart :: shown3).
  cbn [stdin console files]. do 2 f_equal.
  by rewrite <- !(assoc_L (++)).
Qed.

(** A run on a host-down notice: mode 2, "y" at the question, an analysis
    from the backend, and the report is in the working directory. *)
Lemma failed_scan_report_witness :
  let r := main (scanner (CompletedProcess 0 scan_host_down ""))
             (backend (Response 200 (Ok "## Findings")))
             split_words ["ctf.py"; "10.10.10.5"] (typing ["2"; "y"]) in
  check_scan_results (Some scan_host_down)
  = (false, "Host appears down (try -Pn flag)")
  /\ r.1 = Ok tt
  /\ files r.2
     = <["analysis_10_10_10_5.md"
         := report_content "10.10.10.5" scan_host_down "## Findings"]> ∅
  /\ Mentions scan_host_down
       (report_content "10.10.10.5" scan_host_down "## Findings").
Proof.
  cbv zeta. split; [vm_compute; reflexivity|].
  destruct (failed_scan_report (scanner (CompletedProcess 0 scan_host_down ""))
              (backend (Response 200 (Ok "## Findings"))) split_words
              ["ctf.py"; "10.10.10.5"] (typing ["2"; "y"])
              (World ["y"] [Banner; Menu; Asked AskChoice; WarnAllPorts] ∅)
              "ctf.py" "10.10.10.5" [] full_options scan_host_down ""
              "Host appears down (try -Pn flag)" "y" "## Findings" [])
    as (Hok & Hfiles & Hin & _).
  - reflexivity.
  - discriminate.
  - vm_compute. reflexivity.
  - reflexivity.
  - discriminate.
  - vm_compute. reflexivity.
  - apply not_Mentions. vm_compute. reflexivity.
  - reflexivity.
  - vm_compute. reflexivity.
  - reflexivity.
  - vm_compute. reflexivity.
  - split; [exact Hok|]. split; [exact Hfiles | exact Hin].
Defined.

(** ** The files over a whole run *)

Lemma keeps_files_bind {A B} (m : M A) (k : A -> M B) :
  keeps_files m -> (forall a, keeps_files (k a)) -> keeps_files (m ≫= k).
Proof.
  intros Hm Hk w. unfold mbind, M_bind, bind. specialize (Hm w).
  destruct (m w) as [[a|e] w']; cbn in *; [|done]. by rewrite Hk.
Qed.

Lemma files_within_bind {A B} (Q : gmap string string -> gmap string string -> Prop)
    (m : M A) (k : A -> M B) :
  (forall f, Q f f) -> keeps_files m -> (forall a, files_within Q (k a)) ->
  files_within Q (m ≫= k).
Proof.
  intros HQ Hm Hk w. unfold mbind, M_bind, bind. specialize (Hm w).
  destruct (m w) as [[a|e] w']; cbn in *.
  - rewrite <- Hm. apply Hk.
  - rewrite Hm. apply HQ.
Qed.

Lemma files_within_keeps {A} (Q : gmap string string -> gmap string string -> Prop)
    (m : M A) :
  (forall f, Q f f) -> keeps_files m -> files_within Q m.
Proof. intros HQ Hm w. rewrite Hm. apply HQ. Qed.

Lemma keeps_files_print (e : event) : keeps_files (print e).
Proof. done. Qed.

Lemma keeps_files_ret {A} (a : A) : keeps_files (ret a).
Proof. done. Qed.

Lemma keeps_files_input (p : prompt) : keeps_files (input p).
Proof. intros w. unfold input. by destruct (stdin w). Qed.

Lemma keeps_files_select_options (shlex_split : string -> result (list string)) :
  keeps_files (select_options shlex_split).
Proof. intros w. apply select_options_files. Qed.

Lemma keeps_files_run_nmap (subprocess_run : list string -> Z -> completed)
    (target : string) (options : list string) :
  keeps_files (run_nmap subprocess_run target options).
Proof.
  intros w. by destruct (run_nmap_spec subprocess_run target options w) as (? & _ & ->).
Qed.

Lemma keeps_files_scan_gate (scan_results error : option string) :
  keeps_files (scan_gate scan_results error).
Proof.
  intros w. destruct (negb (truthy scan_results) || truthy error) eqn:E.
  - destruct (scan_gate_failed scan_results error w) as (shown & _ & ->).
    { apply orb_true_iff in E as [E%negb_true_iff|E]; auto. }
    destruct (_ && _); [|done]. by destruct (stdin w).
  - unfold scan_gate. by rewrite E.
Qed.

Lemma files_within_analyze_and_save
    (requests_post : string -> payload -> Z -> http) (target scan_results : string) :
  files_within report_or_nothing (analyze_and_save requests_post target scan_results).
Proof.
  intros w.
  destruct (analyze_and_save_spec requests_post target scan_results w)
    as (analysis & shown & _ & ->).
  destruct (startswith "Error:" analysis) eqn:E; [by left|].
  right. by exists target, scan_results, analysis.
Qed.

(** Whatever the console, the scanner and the backend do, [main] either
    leaves the files as they are or stores one report, and that only for an
    analysis that does not start with "Error:". *)
Lemma main_writes_report_only_after_analysis
    (subprocess_run : list string -> Z -> completed)
    (requests_post : string -> payload -> Z -> http)
    (shlex_split : string -> result (list string)) (argv : list string) :
  files_within report_or_nothing
    (main subprocess_run requests_post shlex_split argv).
Proof.
  assert (forall f, report_or_nothing f f) as Hrefl by (by left).
  unfold main, print_banner.
  apply files_within_bind; [done | apply keeps_files_print | intros _].
  apply files_within_bind; [done | | intros target].
  { destruct argv as [|? [|? ?]]; try apply keeps_files_ret;
      (apply keeps_files_bind; [apply keeps_files_input | intros; apply keeps_files_ret]). }
  destruct (negb (truthy (Some target)));
    [apply files_within_keeps; [done | apply keeps_files_print]|].
  apply files_within_bind; [done | apply keeps_files_print | intros _].
  apply files_within_bind; [done | apply keeps_files_select_options | intros options].
  apply files_within_bind; [done | apply keeps_files_run_nmap | intros [scan_results error]].
  apply files_within_bind; [done | apply keeps_files_scan_gate | intros [text|]].
  - apply files_within_analyze_and_save.
  - apply files_within_keeps; [done | apply keeps_files_ret].
Qed.

(** The script ends with status 0 when [main] returns and with status 1,
    after showing the message, when an exception leaves it; the files are
    those [main] left. *)
Lemma script_exit_status (subprocess_run : list string -> Z -> completed)
    (requests_post : string -> payload -> Z -> http)
    (shlex_split : string -> result (list string)) (argv : list string)
    (w : world) :
  let run := main subprocess_run requests_post shlex_split argv w in
  let exit := script subprocess_run requests_post shlex_split argv w in
  files exit.2 = files run.2
  /\ match run.1 with
     | Ok _ => exit.1 = 0%Z /\ console exit.2 = console run.2
     | Raise e => exit.1 = 1%Z /\ console exit.2 = console run.2 ++ [Fatal e]
     end.
Proof.
  unfold script.
  by destruct (main subprocess_run requests_post shlex_split argv w) as [[[]|e] w'].
Qed.

(** * Further properties of the program *)

(** ** The validator, beyond its priority chain *)

(** X1: the validator accepts a text exactly when it has at least 50
    trimmed characters, no host-down indicator and at least one occurrence
    of the open-port pattern; an absent text is never accepted. *)
Theorem check_scan_results_succeeds_iff (scan_output : option string) :
  (check_scan_results scan_output).1 = true
  <-> exists out ports,
        scan_output = Some out /\ ~ TooShort (Some out) /\ ~ HostDown out
        /\ OpenPorts out ports /\ ports <> [].
Proof.
  split.
  - destruct scan_output as [out|]; [|done]. unfold check_scan_results.
    destruct (negb _ || _) eqn:E1; [done|].
    destruct (str_in "Host seems down" out || _) eqn:E2; [done|].
    destruct (findall open_port_re out) as [|p ps] eqn:E3.
    { by destruct (str_in "filtered" _ || _). }
    intros _. exists out, (p :: ps). split; [done|].
    split; [rewrite <- TooShort_test; congruence|].
    split; [rewrite <- HostDown_test; congruence|].
    split; [by apply findall_OpenPorts | done].
  - intros (out & ports & -> & Hlen & Hup & Hports%findall_sound & Hne).
    unfold check_scan_results.
    destruct (negb _ || _) eqn:E1; [by apply TooShort_test in E1|].
    destruct (str_in "Host seems down" out || _) eqn:E2;
      [by apply HostDown_test in E2|].
    rewrite Hports. by destruct ports.
Qed.

Lemma PortMatch_length (m port : string) : PortMatch m port -> 10 <= String.length m.
Proof.
  intros (ws & -> & Hp & _ & Hw & _). rewrite !length_app.
  destruct port; [done|]. destruct ws; [done|]. cbn. lia.
Qed.

Lemma OpenPorts_numeric (out : string) (ports : list string) :
  OpenPorts out ports ->
  Forall (fun port => port <> "" /\ all_in isdigit port) ports
  /\ 10 * length ports <= String.length out.
Proof.
  induction 1 as [|c s ports _ _ [IH1 IH2]|m port rest ports Hm _ [IH1 IH2]].
  - split; [constructor | done].
  - split; [done | cbn; lia].
  - split.
    + constructor; [|done]. destruct Hm as (ws & _ & Hp & Hd & _). done.
    + apply PortMatch_length in Hm. rewrite length_app. cbn [length]. lia.
Qed.

(** X2: every port the validator finds is a non-empty run of characters of
    the class [\d], and an occurrence takes at least ten characters of the
    text, so a text of [n] characters yields at most [n / 10] ports. *)
Theorem findall_ports_numeric (out : string) :
  Forall (fun port => port <> "" /\ all_in isdigit port) (findall open_port_re out)
  /\ 10 * length (findall open_port_re out) <= String.length out.
Proof. apply OpenPorts_numeric, findall_complete. Qed.

Lemma lstrip_blank (s : string) : all_in isspace s -> lstrip s = "".
Proof.
  induction s as [|c s IH]; [done|]. intros [Hc Hs]. cbn. rewrite Hc. auto.
Qed.

(** X3: a text made of white space only is "no output", however long it is. *)
Theorem check_scan_results_blank (out : string) :
  all_in isspace out ->
  check_scan_results (Some out) = (false, "Scan produced no output").
Proof.
  intros Hblank. unfold check_scan_results, strip.
  rewrite (lstrip_blank _ Hblank). cbn. by rewrite orb_true_r.
Qed.

Lemma check_scan_results_blank_witness :
  all_in isspace (LF +:+ "                                                            " +:+ LF)
  /\ 50 <= String.length (LF +:+ "                                                            " +:+ LF)
  /\ check_scan_results
       (Some (LF +:+ "                                                            " +:+ LF))
     = (false, "Scan produced no output").
Proof.
  assert (all_in isspace
            (LF +:+ "                                                            " +:+ LF))
    as Hblank by (vm_compute; repeat split).
  split; [exact Hblank|]. split; [vm_compute; lia|].
  exact (check_scan_results_blank _ Hblank).
Defined.

(** X4: a failed classification says "No open ports" exactly on a text of
    at least 50 trimmed characters, without host-down indicator and without
    open port, that mentions closed or filtered ports (in any letter case). *)
Theorem check_scan_results_no_open_ports (scan_output : option string) (reason : string) :
  check_scan_results scan_output = (false, reason) ->
  Mentions "No open ports" reason
  <-> exists out,
        scan_output = Some out /\ ~ TooShort (Some out) /\ ~ HostDown out
        /\ OpenPorts out [] /\ ClosedOrFiltered out.
Proof.
  unfold check_scan_results. destruct scan_output as [out|].
  - destruct (negb _ || _) eqn:E1.
    { intros [= <-]. split.
      - intros H%str_in_spec. by vm_compute in H.
      - intros (? & [= <-] & Hlen & _). by apply TooShort_test in E1. }
    destruct (str_in "Host seems down" out || _) eqn:E2.
    { intros [= <-]. split.
      - intros H%str_in_spec. by vm_compute in H.
      - intros (? & [= <-] & _ & Hup & _). by apply HostDown_test in E2. }
    destruct (findall open_port_re out) as [|p ps] eqn:E3; [|done].
    destruct (str_in "filtered" _ || _) eqn:E4; intros [= <-].
    + split; [intros _ | intros _; apply str_in_spec; by vm_compute].
      exists out. split; [done|].
      split; [rewrite <- TooShort_test; congruence|].
      split; [rewrite <- HostDown_test; congruence|].
      split; [by apply findall_OpenPorts | by apply ClosedOrFiltered_test].
    + split.
      * intros H%str_in_spec. by vm_compute in H.
      * intros (? & [= <-] & _ & _ & _ & Hc%ClosedOrFiltered_test). congruence.
  - intros [= <-]. split.
    + intros H%str_in_spec. by vm_compute in H.
    + by intros (? & ? & _).
Qed.

Lemma check_scan_results_no_open_ports_witness :
  Mentions "No open ports" "No open ports found (all ports closed/filtered)"
  /\ OpenPorts scan_all_closed [] /\ ClosedOrFiltered scan_all_closed
  /\ ~ Mentions "No open ports" "No ports detected in scan output".
Proof.
  pose proof (check_scan_results_no_open_ports (Some scan_all_closed)
                "No open ports found (all ports closed/filtered)") as Hclosed.
  pose proof (check_scan_results_no_open_ports (Some scan_nothing)
                "No ports detected in scan output") as Hnone.
  split; [apply str_in_spec; vm_compute; reflexivity|].
  destruct Hclosed as [Hto _]; [vm_compute; reflexivity|].
  destruct Hto as (out & [= <-] & _ & _ & Hports & Hcf);
    [apply str_in_spec; vm_compute; reflexivity|].
  split; [exact Hports|]. split; [exact Hcf|].
  destruct Hnone as [Hto _]; [vm_compute; reflexivity|].
  intros Hm. destruct (Hto Hm) as (out & [= <-] & _ & _ & _ & Hcf2).
  revert Hcf2. apply not_ClosedOrFiltered. vm_compute. reflexivity.
Defined.

(** ** The scan step, beyond the question *)

Lemma check_scan_results_accepts_text (out : string) :
  (check_scan_results (Some out)).1 = true -> truthy (Some out) = true.
Proof.
  unfold check_scan_results. destruct (truthy (Some out)); [done|]. by cbn.
Qed.

(** An accepted scan passes the gate untouched. *)
Lemma scan_step_valid (subprocess_run : list string -> Z -> completed)
    (target : string) (options : list string) (w : world) (stdout stderr : string) :
  subprocess_run ("nmap" :: options ++ [target]) 3600%Z
    = CompletedProcess 0 stdout stderr ->
  (check_scan_results (Some stdout)).1 = true ->
  scan_step subprocess_run target options w
  = (Ok (Some stdout),
     World (stdin w)
       (console w ++ [Running (join " " ("nmap" :: options ++ [target]));
                      ScanComplete (check_scan_results (Some stdout)).2])
       (files w)).
Proof.
  intros Hrun Hvalid. pose proof (check_scan_results_accepts_text _ Hvalid) as Ht.
  unfold scan_step, run_nmap. rewrite Hrun. cbn [Z.eqb negb].
  destruct (check_scan_results (Some stdout)) as [valid message].
  cbn in Hvalid. subst valid. unfold mbind, M_bind, bind, print, ret, scan_gate.
  cbn [stdin console files]. rewrite Ht. cbn [negb orb truthy].
  by rewrite <- (assoc_L (++)).
Qed.

(** X5: a scan the validator accepts goes on to the analysis at once: the
    step yields the scanner's output, the console shows the command line
    and the validator's reason, and nothing is asked. *)
Theorem scan_step_accepted (subprocess_run : list string -> Z -> completed)
    (target : string) (options : list string) (w : world) (stdout stderr : string) :
  subprocess_run ("nmap" :: options ++ [target]) 3600%Z
    = CompletedProcess 0 stdout stderr ->
  (check_scan_results (Some stdout)).1 = true ->
  scan_step subprocess_run target options w
  = (Ok (Some stdout),
     World (stdin w)
       (console w ++ [Running (join " " ("nmap" :: options ++ [target]));
                      ScanComplete (check_scan_results (Some stdout)).2])
       (files w)).
Proof. apply scan_step_valid. Qed.

Lemma scan_step_accepted_witness :
  scan_step (scanner (CompletedProcess 0 scan_two_ports "")) "10.10.10.5"
    quick_options (typing ["unread"])
  = (Ok (Some scan_two_ports),
     World ["unread"]
       [Running "nmap -Pn -sV -sC -T4 10.10.10.5";
        ScanComplete "Found 2 open port(s): 80, 22"]
       ∅).
Proof.
  apply (scan_step_accepted (scanner (CompletedProcess 0 scan_two_ports ""))
           "10.10.10.5" quick_options (typing ["unread"]) scan_two_ports "").
  - reflexivity.
  - vm_compute. reflexivity.
Defined.

(** A text leaves the scan step only as the output of a zero-exit scan. *)
Lemma scan_step_some (subprocess_run : list string -> Z -> completed)
    (target : string) (options : list string) (w w' : world) (text : string) :
  scan_step subprocess_run target options w = (Ok (Some text), w') ->
  files w' = files w
  /\ text <> ""
  /\ (exists stderr,
        subprocess_run ("nmap" :: options ++ [target]) 3600%Z
        = CompletedProcess 0 text stderr)
  /\ ((check_scan_results (Some text)).1 = true
      \/ (check_scan_results (Some text)).1 = false
         /\ ~ Mentions "No open ports" (check_scan_results (Some text)).2
         /\ exists line rest, stdin w = line :: rest /\ lower (strip line) = "y").
Proof.
  unfold scan_step, mbind, M_bind, bind.
  destruct (run_nmap_spec subprocess_run target options w) as (shown1 & _ & ->).
  destruct (subprocess_run _ _) as [returncode stdout stderr| |e]; cbn [scan_outcome].
  - destruct (decide (returncode = 0%Z)) as [->|Hne].
    + destruct (check_scan_results (Some stdout)) as [[] reason] eqn:Ec; cbn [fst snd].
      * pose proof (check_scan_results_accepts_text stdout) as Ht.
        rewrite Ec in Ht. specialize (Ht eq_refl).
        unfold scan_gate. rewrite Ht. cbn [negb orb truthy]. unfold ret.
        intros [= <- <-]. split; [done|]. split; [by apply truthy_Some|].
        split; [by exists stderr | rewrite Ec; by left].
      * destruct (scan_gate_failed (Some stdout) (Some reason)
                    (World (stdin w) (console w ++ shown1) (files w)))
          as (shown2 & _ & ->);
          [right; by apply check_scan_results_reason_truthy in Ec|].
        cbn [str_opt stdin console files].
        destruct (truthy (Some stdout)) eqn:Ht; cbn [andb]; [|done].
        destruct (str_in "No open ports" reason) eqn:Em; cbn [negb]; [done|].
        destruct (stdin w) as [|line rest]; [done|].
        case_decide as Hy; [|done]. intros [= <- <-].
        split; [done|]. split; [by apply truthy_Some|].
        split; [by exists stderr|]. rewrite Ec. right. split; [done|].
        split; [by apply not_Mentions | by exists line, rest].
    + destruct (scan_gate_failed None (Some "Scan failed")
                  (World (stdin w) (console w ++ shown1) (files w)))
        as (shown2 & _ & ->); [by left | done].
  - destruct (scan_gate_failed None (Some "Timeout")
                (World (stdin w) (console w ++ shown1) (files w)))
      as (shown2 & _ & ->); [by left | done].
  - destruct (scan_gate_failed None (Some e)
                (World (stdin w) (console w ++ shown1) (files w)))
      as (shown2 & _ & ->); [by left | done].
Qed.

(** X6: whatever the scanner and the user do, a text reaches the analysis
    only as the non-empty output of a scanner run that ended with code
    zero, and only when the validator accepted it or the user answered "y"
    to the question after a failure that does not say "No open ports". *)
Theorem scan_step_text_origin (subprocess_run : list string -> Z -> completed)
    (target : string) (options : list string) (w w' : world) (text : string) :
  scan_step subprocess_run target options w = (Ok (Some text), w') ->
  text <> ""
  /\ (exists stderr,
        subprocess_run ("nmap" :: options ++ [target]) 3600%Z
        = CompletedProcess 0 text stderr)
  /\ ((check_scan_results (Some text)).1 = true
      \/ (check_scan_results (Some text)).1 = false
         /\ ~ Mentions "No open ports" (check_scan_results (Some text)).2
         /\ exists line rest, stdin w = line :: rest /\ lower (strip line) = "y").
Proof. intros H. by destruct (scan_step_some _ _ _ _ _ _ H) as (_ & ?). Qed.

Lemma scan_step_text_origin_witness :
  scan_nothing <> ""
  /\ (check_scan_results (Some scan_nothing)).1 = false
  /\ exists line rest, typing [" Y"; "unread"] = World (line :: rest) [] ∅
                       /\ lower (strip line) = "y".
Proof.
  destruct (scan_step_text_origin (scanner (CompletedProcess 0 scan_nothing ""))
              "10.10.10.5" quick_options (typing [" Y"; "unread"])
              (World ["unread"]
                 [Running "nmap -Pn -sV -sC -T4 10.10.10.5";
                  ScanIncomplete "No ports detected in scan output";
                  ScanFailedBanner; ScanOutput scan_nothing; Troubleshooting;
                  Asked AskProceed] ∅)
              scan_nothing) as (Hne & _ & [Hok|(Hfail & _ & line & rest & Hin & Hy)]).
  - vm_compute. reflexivity.
  - vm_compute in Hok. discriminate Hok.
  - split; [exact Hne|]. split; [exact Hfail|]. exists line, rest.
    split; [|exact Hy]. cbn in Hin. unfold typing. by rewrite Hin.
Defined.

(** ** The analysis, beyond the marker *)

Lemma startswith_error_marker (e : string) : startswith "Error:" ("Error: " +:+ e) = true.
Proof. apply startswith_spec. exists (" " +:+ e). by norm_app. Qed.

Lemma analyze_scan_unmarked (requests_post : string -> payload -> Z -> http)
    (scan_results target : string) (w : world) (analysis : string) :
  (analyze_scan requests_post scan_results target w).1 = Ok analysis ->
  startswith "Error:" analysis = false ->
  analysis_request requests_post scan_results target = Response 200 (Ok analysis).
Proof.
  unfold analyze_scan. fold (analysis_request requests_post scan_results target).
  destruct (analysis_request _ _ _) as [status_code [text|e]|e].
  - destruct (Z.eqb_spec status_code 200) as [->|Hne].
    + by intros [= ->].
    + intros [= <-]. by rewrite startswith_error_marker.
  - destruct (status_code =? 200)%Z; intros [= <-];
      by rewrite startswith_error_marker.
  - intros [= <-]. by rewrite startswith_error_marker.
Qed.

(** X7: every failure of the request is caught by the marker: a result of
    the requester that does not start with "Error:" is the decoded text of
    an answer with status 200, so the controller never takes an error for
    an analysis. *)
Theorem analyze_scan_genuine (requests_post : string -> payload -> Z -> http)
    (scan_results target : string) (w : world) (analysis : string) :
  (analyze_scan requests_post scan_results target w).1 = Ok analysis ->
  startswith "Error:" analysis = false ->
  analysis_request requests_post scan_results target = Response 200 (Ok analysis).
Proof. apply analyze_scan_unmarked. Qed.

Lemma analyze_scan_genuine_witness :
  analysis_request (backend (Response 200 (Ok "## Open ports")))
    scan_two_ports "10.10.10.5"
  = Response 200 (Ok "## Open ports").
Proof.
  apply (analyze_scan_genuine (backend (Response 200 (Ok "## Open ports")))
           scan_two_ports "10.10.10.5" (typing [])); reflexivity.
Defined.

(** X8: the console says "Analysis complete" exactly when the status is
    200, before the answer is decoded: an answer with status 200 that cannot
    be decoded shows the message and still gives an error text. *)
Theorem analyze_scan_complete_message
    (requests_post : string -> payload -> Z -> http)
    (scan_results target : string) (w : world) :
  let r := analyze_scan requests_post scan_results target w in
  (forall json_response,
     analysis_request requests_post scan_results target
       = Response 200 json_response ->
     console r.2 = console w ++ [AnalysisComplete])
  /\ (forall e,
        analysis_request requests_post scan_results target
          = Response 200 (Raise e) ->
        r.1 = Ok ("Error: " +:+ e)
        /\ console r.2 = console w ++ [AnalysisComplete])
  /\ ((forall json_response,
         analysis_request requests_post scan_results target
           <> Response 200 json_response) ->
      console r.2 = console w).
Proof.
  intros r. subst r. unfold analyze_scan.
  fold (analysis_request requests_post scan_results target).
  split; [|split].
  - intros json_response ->. by destruct json_response.
  - by intros e ->.
  - intros Hno. destruct (analysis_request _ _ _) as [status_code body|e]; [|done].
    destruct (Z.eqb_spec status_code 200) as [->|Hne]; [|done].
    by destruct (Hno body).
Qed.

Lemma analyze_scan_complete_message_witness :
  (analyze_scan (backend (Response 200 (Raise "Expecting value")))
     scan_two_ports "10.10.10.5" (typing []))
  = (Ok "Error: Expecting value", World [] [AnalysisComplete] ∅)
  /\ console (analyze_scan (backend (Response 404 (Ok "ignored")))
                scan_two_ports "10.10.10.5" (typing [])).2
     = [].
Proof.
  split.
  - destruct (analyze_scan_complete_message
                (backend (Response 200 (Raise "Expecting value")))
                scan_two_ports "10.10.10.5" (typing [])) as (_ & H & _).
    destruct (H "Expecting value" eq_refl) as [Hr Hc].
    destruct (analyze_scan _ _ _ _) as [r [i c f]] eqn:E. cbn in Hr, Hc. subst.
    vm_compute in E. by injection E as <- <-.
  - destruct (analyze_scan_complete_message (backend (Response 404 (Ok "ignored")))
                scan_two_ports "10.10.10.5" (typing [])) as (_ & _ & H).
    apply H. intros json_response. discriminate.
Defined.

(** ** The whole run, beyond the files *)

Lemma bind_ext {A B} (m : M A) (k k' : A -> M B) (w : world) :
  (forall a w', k a w' = k' a w') -> (m ≫= k) w = (m ≫= k') w.
Proof.
  intros H. unfold mbind, M_bind, bind. destruct (m w) as [[a|e] w']; [apply H|done].
Qed.

(** X9: when the scanner never ends with code zero (it times out, fails or
    cannot be launched), the backend is not contacted: the run is the same
    with any backend. *)
Theorem main_failed_scan_skips_backend
    (subprocess_run : list string -> Z -> completed)
    (requests_post requests_post' : string -> payload -> Z -> http)
    (shlex_split : string -> result (list string)) (argv : list string)
    (w : world) :
  (forall cmd stdout stderr,
     subprocess_run cmd 3600%Z <> CompletedProcess 0 stdout stderr) ->
  main subprocess_run requests_post shlex_split argv w
  = main subprocess_run requests_post' shlex_split argv w.
Proof.
  intros Hfail. unfold main.
  apply bind_ext; intros _ w1. apply bind_ext; intros target w2.
  destruct (negb (truthy (Some target))); [done|].
  apply bind_ext; intros _ w3. apply bind_ext; intros options w4.
  unfold mbind, M_bind, bind.
  destruct (run_nmap subprocess_run target options w4)
    as [[[scan_results error]|e] w5] eqn:Erun; [|done].
  destruct (scan_gate scan_results error w5) as [[[text|]|e] w6] eqn:Egate; [|done..].
  assert (scan_step subprocess_run target options w4 = (Ok (Some text), w6)) as Hstep.
  { unfold scan_step, mbind, M_bind, bind. by rewrite Erun, Egate. }
  apply scan_step_some in Hstep as (_ & _ & [stderr Hzero] & _).
  by destruct (Hfail _ _ _ Hzero).
Qed.

Lemma main_failed_scan_skips_backend_witness :
  main (scanner TimeoutExpired) (backend (Response 200 (Ok "## Open ports")))
    split_words ["ctf.py"; "10.10.10.5"] (typing ["1"])
  = main (scanner TimeoutExpired) (backend (RequestException "Connection refused"))
      split_words ["ctf.py"; "10.10.10.5"] (typing ["1"]).
Proof.
  apply (main_failed_scan_skips_backend (scanner TimeoutExpired)).
  intros cmd stdout stderr. discriminate.
Defined.

Lemma files_within_main_tail (subprocess_run : list string -> Z -> completed)
    (requests_post : string -> payload -> Z -> http)
    (target : string) (options : list string) :
  files_within (report_from_scan_and_backend subprocess_run requests_post)
    ('(scan_results, error) ← run_nmap subprocess_run target options;
     go ← scan_gate scan_results error;
     match go with
     | Some text => analyze_and_save requests_post target text
     | None => ret tt
     end).
Proof.
  intros w. unfold mbind, M_bind, bind.
  destruct (run_nmap subprocess_run target options w)
    as [[[scan_results error]|e] w1] eqn:Erun.
  2:{ left. cbn. by rewrite <- (keeps_files_run_nmap subprocess_run target options w), Erun. }
  destruct (scan_gate scan_results error w1) as [[[text|]|e] w2] eqn:Egate.
  - assert (scan_step subprocess_run target options w = (Ok (Some text), w2)) as Hstep.
    { unfold scan_step, mbind, M_bind, bind. by rewrite Erun, Egate. }
    apply scan_step_some in Hstep as (Hf & Hne & [stderr Hzero] & _).
    destruct (analyze_and_save_spec requests_post target text w2)
      as (analysis & shown & Hind & ->).
    destruct (startswith "Error:" analysis) eqn:Em; cbn; [by left|].
    right. exists target, options, text, stderr, analysis.
    rewrite Hf. repeat split; try done.
    by apply (analyze_scan_unmarked _ _ _ w2).
  - left. cbn.
    pose proof (keeps_files_scan_gate scan_results error w1) as H2.
    pose proof (keeps_files_run_nmap subprocess_run target options w) as H1.
    rewrite Egate in H2. rewrite Erun in H1. cbn in *. congruence.
  - left. cbn.
    pose proof (keeps_files_scan_gate scan_results error w1) as H2.
    pose proof (keeps_files_run_nmap subprocess_run target options w) as H1.
    rewrite Egate in H2. rewrite Erun in H1. cbn in *. congruence.
Qed.

(** X10: over a whole run [main] changes the files in one way at most: it
    stores one report, whose scan text is the non-empty output of a scanner
    run that ended with code zero and whose analysis is the decoded answer,
    with status 200 and not starting with "Error:", of the backend to the
    request for that text and target.  No other file is written, and none
    after a failed scan or a failed request. *)
Theorem main_report_provenance (subprocess_run : list string -> Z -> completed)
    (requests_post : string -> payload -> Z -> http)
    (shlex_split : string -> result (list string)) (argv : list string) :
  files_within (report_from_scan_and_backend subprocess_run requests_post)
    (main subprocess_run requests_post shlex_split argv).
Proof.
  assert (forall f, report_from_scan_and_backend subprocess_run requests_post f f)
    as Hrefl by (by left).
  unfold main, print_banner.
  apply files_within_bind; [done | apply keeps_files_print | intros _].
  apply files_within_bind; [done | | intros target].
  { destruct argv as [|? [|? ?]]; try apply keeps_files_ret;
      (apply keeps_files_bind; [apply keeps_files_input | intros; apply keeps_files_ret]). }
  destruct (negb (truthy (Some target)));
    [apply files_within_keeps; [done | apply keeps_files_print]|].
  apply files_within_bind; [done | apply keeps_files_print | intros _].
  apply files_within_bind; [done | apply keeps_files_select_options | intros options].
  apply files_within_main_tail.
Qed.

(** ** The report writer, beyond one call *)

Lemma str_in_char_app (c : ascii) (a b : string) :
  str_in (String c "") (a +:+ b) = str_in (String c "") a || str_in (String c "") b.
Proof.
  induction a as [|x a IH].
  - rewrite app_empty_l. cbn. by destruct b.
  - rewrite app_cons. cbn [str_in startswith]. rewrite IH.
    by destruct (Ascii.eqb c x), a, (str_in (String c "") b).
Qed.

Lemma sanitized_no_slash (target : string) : str_in "/" (sanitized target) = false.
Proof.
  induction target as [|c t IH]; [done|]. cbn [sanitized str_in startswith].
  rewrite IH. case_bool_decide as Hc.
  - by destruct (sanitized t).
  - destruct (Ascii.eqb_spec "/" c) as [<-|Hne]; [destruct Hc; by right|].
    by destruct (sanitized t).
Qed.

Lemma sanitized_length (target : string) :
  String.length (sanitized target) = String.length target.
Proof. induction target as [|c t IH]; [done|]. cbn. by rewrite IH. Qed.

(** X11: the report stays in the working directory and is the only file
    touched: for every target the file name holds no "/", it is 12
    characters longer than the target, and every file of another name is
    after the call what it was before. *)
Theorem save_results_in_working_directory (target scan_results analysis : string)
    (w : world) :
  let r := save_results target scan_results analysis w in
  ~ Mentions "/" (report_name target)
  /\ String.length (report_name target) = 12 + String.length target
  /\ r.1 = Ok (report_name target)
  /\ forall name, name <> report_name target -> files r.2 !! name = files w !! name.
Proof.
  cbn zeta. split; [|split; [|split]].
  - apply not_Mentions. rewrite report_name_sanitized, !str_in_char_app.
    by rewrite sanitized_no_slash.
  - rewrite report_name_sanitized, !length_app, sanitized_length. cbn. lia.
  - done.
  - intros name Hne. unfold save_results, mbind, M_bind, bind, write_file, ret.
    cbn -[report_name report_content]. by rewrite lookup_insert_ne.
Qed.

Lemma app_inj_r (a b c : string) : a +:+ c = b +:+ c -> a = b.
Proof.
  revert b. induction a as [|x a IH]; intros [|y b] H.
  - done.
  - apply (f_equal String.length) in H. rewrite app_cons, app_empty_l in H.
    cbn in H. rewrite length_app in H. lia.
  - apply (f_equal String.length) in H. rewrite app_cons, app_empty_l in H.
    cbn in H. rewrite length_app in H. lia.
  - rewrite !app_cons in H. injection H as -> H. f_equal. by apply IH.
Qed.

Lemma report_name_eq (target1 target2 : string) :
  report_name target1 = report_name target2 <-> sanitized target1 = sanitized target2.
Proof.
  rewrite !report_name_sanitized. split; [|by intros ->].
  intros H. apply (inj (String.app "analysis_")) in H. by apply app_inj_r in H.
Qed.

Lemma Ok_inj {A} (a b : A) : Ok a = Ok b -> a = b.
Proof. by intros [= ->]. Qed.

(** X12: two targets share a report file exactly when they agree once "."
    and "/" are read as "_"; the report of the second then replaces that of
    the first, of which nothing is left. *)
Theorem save_results_collision (target1 scan1 analysis1 target2 scan2 analysis2 : string)
    (w : world) :
  let first := save_results target1 scan1 analysis1 w in
  let second := save_results target2 scan2 analysis2 first.2 in
  (first.1 = second.1 <-> sanitized target1 = sanitized target2)
  /\ (sanitized target1 = sanitized target2 ->
      files second.2 = files (save_results target2 scan2 analysis2 w).2
      /\ files second.2 !! report_name target1
         = Some (report_content target2 scan2 analysis2)).
Proof.
  cbn zeta. unfold save_results, mbind, M_bind, bind, write_file, ret.
  cbn -[report_name report_content]. split.
  - split; [intros H%Ok_inj; by apply report_name_eq|].
    intros H%report_name_eq. by rewrite H.
  - intros H%report_name_eq. rewrite H, insert_insert_eq.
    split; [done | by rewrite lookup_insert_eq].
Qed.

Lemma save_results_collision_witness :
  report_name "10.0.0.0/24" = report_name "10.0.0.0.24"
  /\ files (save_results "10.0.0.0.24" scan_nothing "second"
              (save_results "10.0.0.0/24" scan_two_ports "first" (typing [])).2).2
     !! "analysis_10_0_0_0_24.md"
     = Some (report_content "10.0.0.0.24" scan_nothing "second").
Proof.
  destruct (save_results_collision "10.0.0.0/24" scan_two_ports "first"
              "10.0.0.0.24" scan_nothing "second" (typing [])) as [_ H].
  split; [reflexivity|]. destruct H as [_ H]; [reflexivity|]. exact H.
Defined.

(** ** Mode selection, beyond the full scan *)

Lemma fromkeys_from_first_occurrences (seen l : list string) :
  fromkeys_from seen l = filter (fun y => y ∉ seen) (first_occurrences l).
Proof.
  revert seen. induction l as [|x l IH]; intros seen; [done|].
  cbn [fromkeys_from first_occurrences]. rewrite filter_cons.
  case_bool_decide as Hx.
  - rewrite decide_False by auto. rewrite IH, list_filter_filter.
    apply list_filter_iff. intros y. split; [|tauto].
    intros Hy. split; [done|]. by intros ->.
  - rewrite decide_True by done. f_equal. rewrite IH, list_filter_filter.
    apply list_filter_iff. intros y. rewrite not_elem_of_cons. tauto.
Qed.

(** De-duplication through the keys of a dictionary keeps every first
    occurrence in its place. *)
Lemma fromkeys_keeps_first (l : list string) : fromkeys l = first_occurrences l.
Proof.
  unfold fromkeys. rewrite fromkeys_from_first_occurrences.
  induction (first_occurrences l) as [|y k IH]; [done|].
  rewrite filter_cons, decide_True by apply not_elem_of_nil. by f_equal.
Qed.

(** X13: whatever the mode and the flags, the options handed to the scanner
    are the options that the mode read at the menu built, each kept where
    it first occurs and dropped where it occurs again; so they have no
    duplicate and the same elements. *)
Theorem select_options_deduplicated (shlex_split : string -> result (list string))
    (w w' : world) (options : list string) :
  select_options shlex_split w = (Ok options, w') ->
  exists choice w1 built,
    read_choice w = (Ok choice, w1)
    /\ build_options shlex_split choice w1 = (Ok built, w')
    /\ options = first_occurrences built
    /\ NoDup options
    /\ (forall x, x ∈ options <-> x ∈ built).
Proof.
  unfold select_options, mbind, M_bind, bind.
  destruct (read_choice w) as [[choice|e] w1]; [|done].
  destruct (build_options shlex_split choice w1) as [[built|e] w2] eqn:E; [|done].
  intros [= <- <-]. exists choice, w1, built. split; [done|]. split; [done|].
  split; [apply fromkeys_keeps_first|].
  split; [apply NoDup_fromkeys | intros x; apply elem_of_fromkeys].
Qed.

(** Custom flags with repeated tokens: the first "-sV" and the first "-Pn"
    stay where they are. *)
Lemma select_options_deduplicated_witness :
  select_options split_words (typing ["5"; "-sV -Pn -sV -p 80 -Pn"])
  = (Ok ["-sV"; "-Pn"; "-p"; "80"],
     World [] [Asked AskChoice; CustomHelp; Asked AskFlags] ∅)
  /\ exists built,
       build_options split_words "5" (World ["-sV -Pn -sV -p 80 -Pn"] [Asked AskChoice] ∅)
       = (Ok built, World [] [Asked AskChoice; CustomHelp; Asked AskFlags] ∅)
       /\ ["-sV"; "-Pn"; "-p"; "80"] = first_occurrences built.
Proof.
  assert (select_options split_words (typing ["5"; "-sV -Pn -sV -p 80 -Pn"])
          = (Ok ["-sV"; "-Pn"; "-p"; "80"],
             World [] [Asked AskChoice; CustomHelp; Asked AskFlags] ∅)) as Hrun
    by (vm_compute; reflexivity).
  split; [exact Hrun|].
  destruct (select_options_deduplicated split_words _ _ _ Hrun)
    as (choice & w1 & built & Hchoice & Hbuilt & Hfirst & _).
  vm_compute in Hchoice. injection Hchoice as <- <-.
  exists built. split; [exact Hbuilt | exact Hfirst].
Defined.

(** X14: custom flags pass through: the options are the tokens of the
    flags, with "-Pn" in front when no token is "-Pn", less the repeated
    tokens; so every token is an option, "-Pn" is the only option that may
    not be a token, and tokens without repetition that hold "-Pn" are the
    options as they stand. *)
Theorem select_options_custom (shlex_split : string -> result (list string))
    (w : world) (line flags : string) (rest tokens : list string) :
  stdin w = line :: flags :: rest -> strip line = "5" ->
  strip flags <> "" -> shlex_split (strip flags) = Ok tokens ->
  let options :=
    fromkeys (if bool_decide ("-Pn" ∈ tokens) then tokens else "-Pn" :: tokens) in
  select_options shlex_split w
  = (Ok options,
     World rest (console w ++ [Asked AskChoice; CustomHelp; Asked AskFlags]) (files w))
  /\ (forall x, x ∈ options <-> x = "-Pn" \/ x ∈ tokens)
  /\ ("-Pn" ∈ tokens -> NoDup tokens -> options = tokens).
Proof.
  intros Hin Hline Hflags Hsplit options. subst options. split; [|split].
  - unfold select_options, mbind, M_bind, bind.
    rewrite (read_choice_line _ _ _ Hin), Hline.
    rewrite decide_False by done.
    unfold build_options, mbind, M_bind, bind, input, print.
    cbn [String.eqb Ascii.eqb Bool.eqb andb stdin console files].
    apply truthy_Some in Hflags. rewrite Hflags, Hsplit.
    case_bool_decide; unfold ret; cbn; by rewrite <- !(assoc_L (++)).
  - intros x. rewrite elem_of_fromkeys. case_bool_decide as HPn.
    + split; [auto|]. by intros [->|].
    + by rewrite elem_of_cons.
  - intros HPn Hnd. rewrite bool_decide_eq_true_2 by done. by apply fromkeys_NoDup.
Qed.

Lemma select_options_custom_witness :
  select_options split_words (typing ["5"; " -sV -Pn -sV "; "unread"])
  = (Ok ["-sV"; "-Pn"],
     World ["unread"] [Asked AskChoice; CustomHelp; Asked AskFlags] ∅).
Proof.
  destruct (select_options_custom split_words (typing ["5"; " -sV -Pn -sV "; "unread"])
              "5" " -sV -Pn -sV " ["unread"] ["-sV"; "-Pn"; "-sV"])
    as (Hrun & _).
  - reflexivity.
  - vm_compute. reflexivity.
  - vm_compute. discriminate.
  - vm_compute. reflexivity.
  - exact Hrun.
Defined.

(** X15: the quick and the aggressive mode.  The choice "1" gives "-Pn",
    "-sV", "-sC", "-T4" and the choice "3" gives "-Pn", "-A", "-T4"; in both
    one line is read and no warning is shown. *)
Theorem select_options_quick_aggressive
    (shlex_split : string -> result (list string))
    (w : world) (line : string) (rest : list string) :
  stdin w = line :: rest ->
  (strip line = "1" ->
     select_options shlex_split w
     = (Ok ["-Pn"; "-sV"; "-sC"; "-T4"],
        World rest (console w ++ [Asked AskChoice]) (files w)))
  /\ (strip line = "3" ->
        select_options shlex_split w
        = (Ok ["-Pn"; "-A"; "-T4"],
           World rest (console w ++ [Asked AskChoice]) (files w))).
Proof.
  intros Hin. split; intros Hline;
    unfold select_options, mbind, M_bind, bind;
    rewrite (read_choice_line _ _ _ Hin), Hline; reflexivity.
Qed.

Lemma select_options_quick_aggressive_witness :
  select_options split_words (typing [" 1"])
  = (Ok ["-Pn"; "-sV"; "-sC"; "-T4"], World [] [Asked AskChoice] ∅)
  /\ select_options split_words (typing ["3 "; "unread"])
     = (Ok ["-Pn"; "-A"; "-T4"], World ["unread"] [Asked AskChoice] ∅).
Proof.
  split.
  - destruct (select_options_quick_aggressive split_words (typing [" 1"]) " 1" []
                eq_refl) as [H _].
    apply H. vm_compute. reflexivity.
  - destruct (select_options_quick_aggressive split_words (typing ["3 "; "unread"])
                "3 " ["unread"] eq_refl) as [_ H].
    apply H. vm_compute. reflexivity.
Defined.

Lemma port_flag_fresh (ports : string) :
  (("-p" +:+ ports) ∉ ["-sC"; "-sV"; "-Pn"])
  /\ ("-T4" ∉ ["-p" +:+ ports; "-sC"; "-sV"; "-Pn"]).
Proof.
  rewrite !app_cons, app_empty_l. split; intros H;
    repeat (apply elem_of_cons in H as [H|H]; [discriminate H|]);
    by apply elem_of_nil in H.
Qed.

(** X16: the mode for given ports.  The typed ports, trimmed, follow "-p" in
    one argument, whatever they hold, and "1-10000" stands in for an empty
    line; the port argument is never taken for a duplicate of another
    option, so there are always five options. *)
Theorem select_options_ports (shlex_split : string -> result (list string))
    (w : world) (line ports_line : string) (rest : list string) :
  stdin w = line :: ports_line :: rest -> strip line = "4" ->
  let ports := if decide (strip ports_line = "") then "1-10000" else strip ports_line in
  select_options shlex_split w
  = (Ok ["-Pn"; "-sV"; "-sC"; "-p" +:+ ports; "-T4"],
     World rest (console w ++ [Asked AskChoice; Asked AskPorts]) (files w)).
Proof.
  intros Hin Hline ports.
  unfold select_options, mbind, M_bind, bind.
  rewrite (read_choice_line _ _ _ Hin), Hline. rewrite decide_False by done.
  unfold build_options, mbind, M_bind, bind, input.
  cbn [String.eqb Ascii.eqb Bool.eqb andb stdin console files].
  assert ((if truthy (Some (strip ports_line)) then strip ports_line else "1-10000")
          = ports) as ->.
  { subst ports. by destruct (strip ports_line). }
  assert (fromkeys ["-Pn"; "-sV"; "-sC"; "-p" +:+ ports; "-T4"]
          = ["-Pn"; "-sV"; "-sC"; "-p" +:+ ports; "-T4"]) as Hkeys.
  { destruct (port_flag_fresh ports) as [H1 H2].
    unfold fromkeys. cbn [fromkeys_from].
    rewrite !bool_decide_eq_false_2; try done.
    all: intros H; repeat (apply elem_of_cons in H as [H|H]; [discriminate H|]);
      by apply elem_of_nil in H. }
  unfold ret. cbv beta iota. by rewrite Hkeys, <- (assoc_L (++)).
Qed.

Lemma select_options_ports_witness :
  select_options split_words (typing ["4"; " 22, 80 "])
  = (Ok ["-Pn"; "-sV"; "-sC"; "-p22, 80"; "-T4"],
     World [] [Asked AskChoice; Asked AskPorts] ∅)
  /\ select_options split_words (typing ["4"; ""])
     = (Ok ["-Pn"; "-sV"; "-sC"; "-p1-10000"; "-T4"],
        World [] [Asked AskChoice; Asked AskPorts] ∅).
Proof.
  split.
  - apply (select_options_ports split_words (typing ["4"; " 22, 80 "])
             "4" " 22, 80 " []); reflexivity.
  - apply (select_options_ports split_words (typing ["4"; ""]) "4" "" []);
      reflexivity.
Defined.

(** ** How a run ends *)

(** X17: without a target nothing is scanned and the script still ends with
    status 0: a blank line typed at the target prompt, or an empty target on
    the command line, shows the error after the banner and ends the run,
    with no further question and no file written. *)
Theorem script_empty_target (subprocess_run : list string -> Z -> completed)
    (requests_post : string -> payload -> Z -> http)
    (shlex_split : string -> result (list string)) (argv : list string)
    (w : world) :
  (forall line rest,
     length argv <= 1 -> stdin w = line :: rest -> strip line = "" ->
     script subprocess_run requests_post shlex_split argv w
     = (0%Z, World rest (console w ++ [Banner; Asked AskTarget; ErrNoTarget]) (files w)))
  /\ (forall prog more,
        argv = prog :: "" :: more ->
        script subprocess_run requests_post shlex_split argv w
        = (0%Z, World (stdin w) (console w ++ [Banner; ErrNoTarget]) (files w))).
Proof.
  split.
  - intros line rest Hargv Hin Hline.
    unfold script, main, print_banner, mbind, M_bind, bind, print, input, ret.
    cbn [stdin console files].
    destruct argv as [|prog [|target more]]; [| |cbn in Hargv; lia];
      rewrite Hin; cbv beta iota; cbn [stdin console files];
      rewrite Hline; cbn; by rewrite <- !(assoc_L (++)).
  - intros prog more ->.
    unfold script, main, print_banner, mbind, M_bind, bind, print, ret.
    cbn. by rewrite <- !(assoc_L (++)).
Qed.

Lemma script_empty_target_witness :
  script (scanner TimeoutExpired) (backend (RequestException "unused")) split_words
    ["ctf.py"] (typing ["   "; "2"])
  = (0%Z, World ["2"] [Banner; Asked AskTarget; ErrNoTarget] ∅)
  /\ script (scanner TimeoutExpired) (backend (RequestException "unused")) split_words
       ["ctf.py"; ""] (typing ["2"])
     = (0%Z, World ["2"] [Banner; ErrNoTarget] ∅).
Proof.
  split.
  - destruct (script_empty_target (scanner TimeoutExpired)
                (backend (RequestException "unused")) split_words
                ["ctf.py"] (typing ["   "; "2"])) as [H _].
    apply (H "   " ["2"]); [cbn; lia | reflexivity | reflexivity].
  - destruct (script_empty_target (scanner TimeoutExpired)
                (backend (RequestException "unused")) split_words
                ["ctf.py"; ""] (typing ["2"])) as [_ H].
    apply (H "ctf.py" []). reflexivity.
Defined.

(** X19: custom flags the tokenizer rejects end the run with status 1
    before anything is scanned: after the two questions the console shows
    the tokenizer's message and no file is written. *)
Theorem script_flags_rejected (subprocess_run : list string -> Z -> completed)
    (requests_post : string -> payload -> Z -> http)
    (shlex_split : string -> result (list string)) (argv : list string)
    (w : world) (prog target line flags e : string) (more rest : list string) :
  argv = prog :: target :: more -> target <> "" ->
  stdin w = line :: flags :: rest -> strip line = "5" ->
  strip flags <> "" -> shlex_split (strip flags) = Raise e ->
  script subprocess_run requests_post shlex_split argv w
  = (1%Z,
     World rest
       (console w ++ [Banner; Menu; Asked AskChoice; CustomHelp; Asked AskFlags; Fatal e])
       (files w)).
Proof.
  intros Hargv Htarget Hin Hline Hflags Hsplit. unfold script.
  rewrite (main_with_target _ _ _ _ _ _ _ _ Hargv Htarget).
  unfold mbind at 1, M_bind at 1, bind at 1.
  assert (select_options shlex_split
            (World (stdin w) (console w ++ [Banner; Menu]) (files w))
          = (Raise e,
             World rest
               (console w ++ [Banner; Menu; Asked AskChoice; CustomHelp; Asked AskFlags])
               (files w))) as ->.
  { unfold select_options, mbind, M_bind, bind.
    rewrite (read_choice_line _ line (flags :: rest)) by done. rewrite Hline.
    rewrite decide_False by done.
    unfold build_options, mbind, M_bind, bind, input, print, raise.
    cbn [String.eqb Ascii.eqb Bool.eqb andb stdin console files].
    apply truthy_Some in Hflags. rewrite Hflags, Hsplit.
    by rewrite <- !(assoc_L (++)). }
  cbn [stdin console files]. by rewrite <- !(assoc_L (++)).
Qed.

Lemma script_flags_rejected_witness :
  script (scanner TimeoutExpired) (backend (RequestException "unused"))
    (split_rejecting "--script 'vuln" "No closing quotation")
    ["ctf.py"; "10.10.10.5"] (typing ["5"; "--script 'vuln "; "unread"])
  = (1%Z,
     World ["unread"]
       [Banner; Menu; Asked AskChoice; CustomHelp; Asked AskFlags;
        Fatal "No closing quotation"]
       ∅).
Proof.
  apply (script_flags_rejected (scanner TimeoutExpired)
           (backend (RequestException "unused"))
           (split_rejecting "--script 'vuln" "No closing quotation")
           ["ctf.py"; "10.10.10.5"] (typing ["5"; "--script 'vuln "; "unread"])
           "ctf.py" "10.10.10.5" "5" "--script 'vuln " "No closing quotation" [] ["unread"]).
  - reflexivity.
  - discriminate.
  - reflexivity.
  - reflexivity.
  - vm_compute. discriminate.
  - vm_compute. reflexivity.
Defined.




Lemma substring_head (n : nat) (s : string) :
  startswith (String.substring 0 n s) s = true
  /\ String.length (String.substring 0 n s) = Nat.min n (String.length s).
Proof.
  revert s. induction n as [|n IH]; intros [|c s]; cbn; try done.
  destruct (IH s) as [-> ->]. by rewrite Ascii.eqb_refl.
Qed.

(** X21: after a scan that did not go through but left a text, the head of
    the text, never more than 500 characters of it, is what the failure
    screen shows between the banner and the troubleshooting hints, at most
    the question after them; when the head does not render, the gate raises
    the markup error after the banner, with no hint and no question. *)
Theorem scan_gate_shows_head (renders : event -> bool) (markup_error : event -> string)
    (text : string) (error : option string) (w : world) :
  let head := String.substring 0 500 text in
  let r := Rendered.scan_gate renders markup_error (Some text) error w in
  text <> "" -> truthy error = true ->
  startswith head text = true
  /\ String.length head = Nat.min 500 (String.length text)
  /\ (renders (ScanOutput head) = true ->
      exists later,
        console r.2
        = console w ++ [ScanFailedBanner; ScanOutput head; Troubleshooting] ++ later
        /\ (later = [] \/ later = [Asked AskProceed]))
  /\ (renders (ScanOutput head) = false ->
      r.1 = Raise (markup_error (ScanOutput head))
      /\ stdin r.2 = stdin w
      /\ exists shown,
           console r.2 = console w ++ shown
           /\ messages_only shown /\ (Troubleshooting ∉ shown)).
Proof.
  intros head r Hne Herr. subst r.
  destruct (substring_head 500 text) as [Hpre Hlen].
  split; [exact Hpre|]. split; [exact Hlen|]. split.
  - intros Hhead. rewrite scan_gate_rendered by (right; exact Hhead).
    apply truthy_Some in Hne.
    unfold scan_gate. rewrite Hne, Herr. cbn [negb orb andb str_opt].
    unfold mbind, M_bind, bind, print, ret, input.
    destruct (negb (str_in "No open ports" (str_opt error)));
      cbn -[String.substring lower strip String.eqb].
    + exists [Asked AskProceed]. split; [|auto].
      destruct (stdin w) as [|line rest];
        [|destruct (negb (String.eqb (lower (strip line)) "y"))];
        cbn [snd console]; by rewrite <- !(assoc_L (++)).
    + exists []. split; [|auto]. by rewrite <- !(assoc_L (++)).
  - intros Hhead. rewrite scan_gate_unrendered by done. cbn [fst snd stdin console].
    split; [done|]. split; [done|]. exists [ScanFailedBanner].
    split; [done|]. split; [no_question | compute_done].
Qed.

(** A host-down notice is shown in full; a text with a closing tag of its
    own stops the gate. *)
Lemma scan_gate_shows_head_witness :
  (exists later,
     console (Rendered.scan_gate no_closing_tag closing_tag_error
                (Some scan_host_down) (Some "Host appears down (try -Pn flag)")
                (typing ["n"])).2
     = [ScanFailedBanner; ScanOutput scan_host_down; Troubleshooting] ++ later
     /\ (later = [] \/ later = [Asked AskProceed]))
  /\ (Rendered.scan_gate no_closing_tag closing_tag_error
        (Some "Nmap scan report for 10.10.10.5 [/admin]")
        (Some "Scan produced no output") (typing ["y"])).1
     = Raise (closing_tag_error (ScanOutput "Nmap scan report for 10.10.10.5 [/admin]")).
Proof.
  split.
  - destruct (scan_gate_shows_head no_closing_tag closing_tag_error scan_host_down
                (Some "Host appears down (try -Pn flag)") (typing ["n"]))
      as (_ & _ & Hshown & _).
    + discriminate.
    + reflexivity.
    + apply Hshown. vm_compute. reflexivity.
  - destruct (scan_gate_shows_head no_closing_tag closing_tag_error
                "Nmap scan report for 10.10.10.5 [/admin]"
                (Some "Scan produced no output") (typing ["y"]))
      as (_ & _ & _ & Hraise).
    + discriminate.
    + reflexivity.
    + destruct Hraise as [Hr _]; [vm_compute; reflexivity | exact Hr].
Defined.

(** ** The reason of an accepted scan as a record of the ports *)

(** A run of a class in front of a text that starts outside the class is
    cut off in one way only. *)
Lemma run_unique (cls : ascii -> bool) (a a' b b' : string) :
  all_in cls a -> all_in cls a' -> starts_outside cls b -> starts_outside cls b' ->
  a +:+ b = a' +:+ b' -> a = a' /\ b = b'.
Proof.
  revert a'. induction a as [|x a IH]; intros [|y a'] Ha Ha' Hb Hb' H.
  - done.
  - rewrite app_empty_l, app_cons in H. subst b. destruct Ha' as [Hy _].
    cbn in Hb. congruence.
  - rewrite app_empty_l, app_cons in H. subst b'. destruct Ha as [Hx _].
    cbn in Hb'. congruence.
  - rewrite !app_cons in H. injection H as -> H. destruct Ha as [_ Ha], Ha' as [_ Ha'].
    destruct (IH a' Ha Ha' Hb Hb' H) as [-> ->]. done.
Qed.

Lemma string_of_uint_digits (d : Decimal.uint) :
  all_in isdigit (NilEmpty.string_of_uint d).
Proof. induction d; cbn; auto. Qed.

Lemma str_nat_digits (n : nat) : all_in isdigit (str_nat n).
Proof.
  unfold str_nat, NilZero.string_of_uint.
  destruct (Nat.to_uint n) eqn:E; [by cbn|..]; rewrite <- E;
    apply string_of_uint_digits.
Qed.

Lemma join_cons (p : string) (ps : list string) :
  join ", " (p :: ps)
  = p +:+ match ps with [] => "" | _ :: _ => ", " +:+ join ", " ps end.
Proof. destruct ps; [by rewrite app_empty_r | done]. Qed.

Lemma join_digits_inj (ps qs : list string) :
  Forall (fun port => port <> "" /\ all_in isdigit port) ps ->
  Forall (fun port => port <> "" /\ all_in isdigit port) qs ->
  join ", " ps = join ", " qs -> ps = qs.
Proof.
  intros Hps. revert qs. induction Hps as [|p ps [Hp Hdp] Hps IH];
    intros qs Hqs H; destruct Hqs as [|q qs [Hq Hdq] Hqs].
  - done.
  - rewrite join_cons in H. by destruct q.
  - rewrite join_cons in H. by destruct p.
  - rewrite !join_cons in H.
    apply (run_unique isdigit) in H as [-> H]; [|done|done|by destruct ps|by destruct qs].
    f_equal. destruct ps as [|p' ps], qs as [|q' qs]; try done.
    apply IH; [done|]. by apply (inj (String.app ", ")) in H.
Qed.

Lemma check_scan_results_reason (out : string) :
  (check_scan_results (Some out)).1 = true ->
  (check_scan_results (Some out)).2
  = "Found " +:+ str_nat (length (findall open_port_re out))
      +:+ " open port(s): " +:+ join ", " (findall open_port_re out).
Proof.
  unfold check_scan_results.
  destruct (negb _ || _); [done|].
  destruct (str_in "Host seems down" out || _); [done|].
  destruct (findall open_port_re out); [|done].
  by destruct (str_in "filtered" _ || _).
Qed.

(** X22: the reason of an accepted scan records the ports faithfully: two
    accepted texts get the same reason exactly when the validator found the
    same ports in the same order in both. *)
Theorem check_scan_results_reason_inj (out1 out2 : string) :
  (check_scan_results (Some out1)).1 = true ->
  (check_scan_results (Some out2)).1 = true ->
  (check_scan_results (Some out1)).2 = (check_scan_results (Some out2)).2
  <-> findall open_port_re out1 = findall open_port_re out2.
Proof.
  intros H1%check_scan_results_reason H2%check_scan_results_reason.
  rewrite H1, H2. split; [|by intros ->].
  intros H. apply (inj (String.app "Found ")) in H.
  apply (run_unique isdigit) in H as [_ H];
    [|apply str_nat_digits|apply str_nat_digits|done|done].
  apply (inj (String.app " open port(s): ")) in H.
  apply join_digits_inj in H; [done|..];
    apply (OpenPorts_numeric _ _ (findall_complete _)).
Qed.

Lemma check_scan_results_reason_inj_witness :
  (check_scan_results (Some scan_two_ports)).2
  = (check_scan_results
       (Some ("PORT STATE SERVICE (two services on 10.10.10.5)" +:+ LF
              +:+ "80/tcp  open  http" +:+ LF +:+ "22/tcp  open  ssh"))).2.
Proof.
  apply (check_scan_results_reason_inj scan_two_ports
           ("PORT STATE SERVICE (two services on 10.10.10.5)" +:+ LF
            +:+ "80/tcp  open  http" +:+ LF +:+ "22/tcp  open  ssh")).
  - vm_compute. reflexivity.
  - vm_compute. reflexivity.
  - vm_compute. reflexivity.
Defined.
